(** * Data Consumption Tool: column classification, chart-data preparation
      and the upload handler of [dashboard_app.py]

    The development embeds the dashboard's Python code shallowly:
    - column names are byte strings with ASCII case folding ([str.lower]
      restricted to ASCII; the keywords of the classifier are ASCII);
    - a [DataFrame] is an index of row labels and an ordered list of named
      columns; a cell is text, a number, a missing number, a timestamp or a
      missing timestamp;
    - the module-level dictionary [uploaded_data_store] maps keys to object
      references, and a heap maps references to frames, so that aliasing
      between the stored frame and the frame a callback works on is visible;
    - exceptions are results [Raise e]; the functions of pandas, base64 and
      codecs that the code calls are an interface ([Library]) with the laws
      the code relies on. *)

From Stdlib Require Import String Ascii ZArith QArith List Lia Bool.
From stdpp Require Import base gmap strings list fin_maps pretty.

Local Open Scope string_scope.
Local Open Scope nat_scope.

(** ** Python strings *)

Module PyStr.

(** [c.lower()] on one ASCII character. *)
Definition lower_ascii (c : ascii) : ascii :=
  let n := nat_of_ascii c in
  if (65 <=? n) && (n <=? 90) then ascii_of_nat (n + 32) else c.

(** [s.lower()] *)
Fixpoint lower (s : string) : string :=
  match s with
  | EmptyString => EmptyString
  | String c r => String (lower_ascii c) (lower r)
  end.

(** [sub in s] *)
Fixpoint contains (sub s : string) : bool :=
  String.prefix sub s
  || match s with
     | EmptyString => false
     | String _ r => contains sub r
     end.

(** [s.endswith(suf)] *)
Definition endswith (s suf : string) : bool :=
  (String.length suf <=? String.length s)
  && String.eqb (substring (String.length s - String.length suf)
                           (String.length suf) s) suf.

(** [s.split(sep)] for a separator of one character. *)
Fixpoint split_acc (sep : ascii) (cur : string) (s : string) : list string :=
  match s with
  | EmptyString => [String.rev cur]
  | String c r =>
      if Ascii.eqb c sep then String.rev cur :: split_acc sep EmptyString r
      else split_acc sep (String c cur) r
  end.

Definition split (sep : ascii) (s : string) : list string :=
  split_acc sep EmptyString s.

(** [sep.join(l)] *)
Fixpoint join (sep : string) (l : list string) : string :=
  match l with
  | [] => EmptyString
  | [x] => x
  | x :: r => x +:+ sep +:+ join sep r
  end.

(** Containment up to case, as a specification: some substring of [s]
    folds to the folded keyword. *)
Definition ci_contains (kw s : string) : Prop :=
  exists pre mid post, s = pre +:+ mid +:+ post /\ lower mid = lower kw.

End PyStr.

(** ** Column classifier (the three comprehensions of [process_file_upload]
       and [get_page_content]) *)

Module Classifier.
Import PyStr.

Definition is_power (col : string) : bool :=
  contains "chiller" (lower col) && contains "power" (lower col).

Definition is_supply (col : string) : bool :=
  (contains "supply" (lower col) || contains "chws" (lower col))
  && (contains "temp" (lower col) || contains "t" (lower col)).

Definition is_return (col : string) : bool :=
  (contains "return" (lower col) || contains "chwr" (lower col)
   || contains "ret" (lower col))
  && (contains "temp" (lower col) || contains "t" (lower col)).

Definition power_cols (columns : list string) : list string :=
  List.filter is_power columns.

Definition supply_cols (columns : list string) : list string :=
  List.filter is_supply columns.

Definition return_cols (columns : list string) : list string :=
  List.filter is_return columns.

End Classifier.

(** ** Exceptions and results *)

Inductive exn_class :=
| ValueError | TypeError | IndexError | KeyError | AttributeError
| BinasciiError | UnicodeDecodeError | ParserError.

(** An exception object; [exn_str e] is [str(e)]. *)
Record exception := Exception { exn_cls : exn_class; exn_str : string }.

Inductive result (A : Type) :=
| Return (a : A)
| Raise (e : exception).
Arguments Return {A} a.
Arguments Raise {A} e.

Definition result_bind {A B} (r : result A) (k : A -> result B) : result B :=
  match r with
  | Return a => k a
  | Raise e => Raise e
  end.

Fixpoint result_mapM {A B} (f : A -> result B) (l : list A) : result (list B) :=
  match l with
  | [] => Return []
  | x :: r =>
      result_bind (f x) (fun y =>
      result_bind (result_mapM f r) (fun ys => Return (y :: ys)))
  end.

(** ** Tables *)

Record datetime := Datetime {
  year : nat; month : nat; day : nat;
  hour : nat; minute : nat; second : nat }.

(** One cell of a column. [NaN] is the missing number, [NaT] the missing
    timestamp. *)
Inductive scalar :=
| Text (s : string)
| Number (x : Q)
| NaN
| Timestamp (t : datetime)
| NaT.

(** The element type of a column: text ([object]), numbers or timestamps. *)
Inductive dtype := Object | Numeric | Datetime64.

(** A column: its element type and one cell per row. *)
Record Series := mkSeries {
  dtype_of : dtype;
  values : list scalar }.


Definition is_text (v : scalar) : bool :=
  match v with Text _ => true | _ => false end.

Definition is_null (v : scalar) : bool :=
  match v with NaN | NaT => true | _ => false end.

Definition is_datetime (v : scalar) : Prop :=
  match v with Timestamp _ | NaT => True | _ => False end.

Definition is_numeric (v : scalar) : Prop :=
  match v with Number _ | NaN => True | _ => False end.

Definition object_dtype (s : Series) : bool :=
  match dtype_of s with Object => true | _ => false end.

(** [index]: the row labels; [data]: the columns in order, by name. *)
Record DataFrame := Frame {
  index : list nat;
  data : list (string * Series) }.

(** [df.columns] *)
Definition columns (df : DataFrame) : list string := map fst (data df).

(** [len(df)] *)
Definition len (df : DataFrame) : nat := length (index df).

(** [df.empty]: some axis has length 0. *)
Definition empty (df : DataFrame) : bool :=
  (len df =? 0) || (length (columns df) =? 0).

(** [c in df.columns] *)
Definition has_column (c : string) (df : DataFrame) : bool :=
  existsb (String.eqb c) (columns df).

Fixpoint assoc (c : string) (l : list (string * Series)) : option Series :=
  match l with
  | [] => None
  | (c', s) :: r => if String.eqb c c' then Some s else assoc c r
  end.

(** [df[c]] *)
Definition getitem (c : string) (df : DataFrame) : result Series :=
  match assoc c (data df) with
  | Some s => Return s
  | None => Raise (Exception KeyError c)
  end.

Fixpoint assoc_set (c : string) (s : Series) (l : list (string * Series))
  : list (string * Series) :=
  match l with
  | [] => [(c, s)]
  | (c', s') :: r =>
      if String.eqb c c' then (c, s) :: r else (c', s') :: assoc_set c s r
  end.

(** [df[c] = s]: an existing column is replaced where it stands, a new one
    is appended. *)
Definition setitem (c : string) (s : Series) (df : DataFrame) : DataFrame :=
  {| index := index df; data := assoc_set c s (data df) |}.

(** [l[::k]] for [k >= 1]: the elements at positions 0, k, 2k, ...
    [skip] counts the elements still to be passed over. *)
Fixpoint stride_from {A} (k skip : nat) (l : list A) : list A :=
  match l with
  | [] => []
  | x :: r =>
      match skip with
      | 0 => x :: stride_from k (k - 1) r
      | S n => stride_from k n r
      end
  end.

Definition slice_step {A} (k : nat) (l : list A) : list A := stride_from k 0 l.

Definition series_step (k : nat) (s : Series) : Series :=
  {| dtype_of := dtype_of s; values := slice_step k (values s) |}.

(** [df.iloc[::k, :]]; a zero step is a [ValueError]. *)
Definition iloc_step (k : nat) (df : DataFrame) : result DataFrame :=
  if k =? 0 then Raise (Exception ValueError "slice step cannot be zero")
  else Return {| index := slice_step k (index df);
                 data := map (fun cs => (fst cs, series_step k (snd cs))) (data df) |}.

(** Every column has one cell per row label. *)
Definition wf (df : DataFrame) : Prop :=
  Forall (fun cs => length (values (snd cs)) = len df) (data df).

(** *** Text concatenation of columns *)

Definition concat_error : exception :=
  Exception TypeError "unsupported operand type(s) for +".

(** One cell of [series + sep] in an object column: missing cells stay
    missing, text is extended, anything else cannot be added to a [str]. *)
Definition add_str_cell (sep : string) (v : scalar) : result scalar :=
  match v with
  | Text s => Return (Text (s +:+ sep))
  | NaN | NaT => Return NaN
  | Number _ | Timestamp _ => Raise concat_error
  end.

(** [series + sep] with [sep] a [str]: only an object column supports it. *)
Definition series_add_str (s : Series) (sep : string) : result Series :=
  if object_dtype s then
    result_bind (result_mapM (add_str_cell sep) (values s))
                (fun vs => Return {| dtype_of := Object; values := vs |})
  else Raise concat_error.

(** One cell of [left + right]: a missing operand gives a missing cell. *)
Definition add_cell (p : scalar * scalar) : result scalar :=
  match p with
  | (Text a, Text b) => Return (Text (a +:+ b))
  | (Number a, Number b) => Return (Number (a + b))
  | (a, b) => if is_null a || is_null b then Return NaN else Raise concat_error
  end.

(** [left + right] on two columns of one frame, cell by cell. *)
Definition series_add (l r : Series) : result Series :=
  result_bind (result_mapM add_cell (combine (values l) (values r)))
              (fun vs => Return {| dtype_of := if object_dtype l then Object
                                              else dtype_of r;
                                   values := vs |}).

(** ** The timestamp pattern of line 136 *)

Definition DATETIME_FORMAT : string := "%m/%d/%Y %H:%M:%S".

Definition digit (c : ascii) : option nat :=
  let n := nat_of_ascii c in
  if (48 <=? n) && (n <=? 57) then Some (n - 48) else None.

Definition two_digits (a b : ascii) : option nat :=
  match digit a, digit b with
  | Some x, Some y => Some (10 * x + y)
  | _, _ => None
  end.

Definition leap (y : nat) : bool :=
  ((y mod 4 =? 0) && negb (y mod 100 =? 0)) || (y mod 400 =? 0).

Definition days_in_month (y m : nat) : nat :=
  match m with
  | 2 => if leap y then 29 else 28
  | 4 | 6 | 9 | 11 => 30
  | _ => 31
  end.

(** The zero-padded texts MM/DD/YYYY HH:MM:SS that name a calendar instant
    a nanosecond timestamp can hold, with the instant they name (month
    first). *)
Definition parse_mdY_HMS (s : string) : option datetime :=
  match list_ascii_of_string s with
  | [m1; m2; k1; d1; d2; k2; y1; y2; y3; y4; k3; h1; h2; k4; n1; n2; k5; s1; s2] =>
      if Ascii.eqb k1 "/" && Ascii.eqb k2 "/" && Ascii.eqb k3 " "
         && Ascii.eqb k4 ":" && Ascii.eqb k5 ":"
      then
        match two_digits m1 m2, two_digits d1 d2, two_digits y1 y2,
              two_digits y3 y4, two_digits h1 h2, two_digits n1 n2,
              two_digits s1 s2 with
        | Some mo, Some dd, Some yh, Some yl, Some hh, Some mi, Some ss =>
            let y := 100 * yh + yl in
            if (1 <=? mo) && (mo <=? 12) && (1 <=? dd)
               && (dd <=? days_in_month y mo)
               && (1678 <=? y) && (y <=? 2261)
               && (hh <? 24) && (mi <? 60) && (ss <? 60)
            then Some (Datetime y mo dd hh mi ss)
            else None
        | _, _, _, _, _, _, _ => None
        end
      else None
  | _ => None
  end.

(** A text cell that follows the pattern, and the instant it names. *)
Definition follows_pattern (v : scalar) (t : datetime) : Prop :=
  exists s, v = Text s /\ parse_mdY_HMS s = Some t.

(** ** The library functions the dashboard calls

    [to_datetime fmt s] is [pd.to_datetime(s, format=fmt, errors='coerce')];
    [parse_number] is [pd.to_numeric(.., errors='coerce')] on one text cell
    and [datetime_as_number] its integer view of a timestamp cell;
    [b64decode], [utf8_decode] and [read_csv] are [base64.b64decode],
    [bytes.decode('utf-8')] and [pd.read_csv(io.StringIO(..))]. *)

Definition bytes := string.

Class Library := {
  to_datetime : option string -> Series -> Series;
  parse_number : string -> option Q;
  datetime_as_number : option datetime -> Q;
  b64decode : string -> result bytes;
  utf8_decode : bytes -> result string;
  read_csv : string -> result DataFrame;
  (* one output cell per input cell *)
  to_datetime_length : forall fmt s,
    length (values (to_datetime fmt s)) = length (values s);
  (* errors='coerce': every cell is a timestamp or the missing timestamp *)
  to_datetime_coerce : forall fmt s,
    Forall is_datetime (values (to_datetime fmt s));
  (* a column of texts that all follow MM/DD/YYYY HH:MM:SS is parsed to the
     instants they name, with the explicit format and with inference *)
  to_datetime_pattern : forall fmt s ts,
    fmt = None \/ fmt = Some DATETIME_FORMAT ->
    Forall2 follows_pattern (values s) ts ->
    values (to_datetime fmt s) = map Timestamp ts;
  read_csv_wf : forall text df, read_csv text = Return df -> wf df
}.

(** ** Program state: object heap and the module-level store *)

Definition loc := positive.

Record State := mkState {
  heap : gmap loc DataFrame;
  uploaded_data_store : gmap string loc }.

(** Computations that read and write the state and may raise. *)
Definition M (A : Type) : Type := State -> result A * State.

#[global] Instance M_ret : MRet M := fun A a st => (Return a, st).

#[global] Instance M_bind : MBind M := fun A B k m st =>
  match m st with
  | (Return a, st') => k a st'
  | (Raise e, st') => (Raise e, st')
  end.

Definition lift {A} (r : result A) : M A := fun st => (r, st).

(** Reading through a reference. *)
Definition deref (l : loc) : M DataFrame := fun st =>
  match heap st !! l with
  | Some df => (Return df, st)
  | None => (Raise (Exception KeyError "dangling reference"), st)
  end.

(** A new object. *)
Definition alloc (df : DataFrame) : M loc := fun st =>
  let l := fresh (dom (heap st)) in
  (Return l, {| heap := <[l := df]> (heap st);
                uploaded_data_store := uploaded_data_store st |}).

(** Mutation of the object behind a reference. *)
Definition update (l : loc) (f : DataFrame -> DataFrame) : M unit := fun st =>
  (Return tt, {| heap := alter f l (heap st);
                 uploaded_data_store := uploaded_data_store st |}).

(** [uploaded_data_store.get(k)] *)
Definition store_get (k : string) : M (option loc) := fun st =>
  (Return (uploaded_data_store st !! k), st).

(** [uploaded_data_store[k] = l] *)
Definition store_set (k : string) (l : loc) : M unit := fun st =>
  (Return tt, {| heap := heap st;
                 uploaded_data_store := <[k := l]> (uploaded_data_store st) |}).

(** [uploaded_data_store.clear()] *)
Definition store_clear : M unit := fun st =>
  (Return tt, {| heap := heap st; uploaded_data_store := ∅ |}).

(** The frame the store holds, if any. *)
Definition stored_frame (st : State) : option DataFrame :=
  l ← uploaded_data_store st !! "data"; heap st !! l.

(** ** Rendered components, without their styling *)

#[warnings="-register-all"]
Inductive html :=
| P (text : string)
| Div (children : list html).

(** ** Chart-data preparation ([prepare_data]) *)

Section Dashboard.
Context `{Library}.

Definition MAX_POINTS : nat := 1000.

(** Lines 129-130: the name of the x-axis column. *)
Definition x_col_of (df : DataFrame) : result string :=
  if has_column "Date/Time" df then Return "Date/Time"
  else if has_column "Date" df && has_column "Time" df then Return "Date/Time"
  else match columns df with
       | c :: _ => Return c
       | [] => Raise (Exception IndexError "index 0 is out of bounds")
       end.

(** Line 135: the values handed to [pd.to_datetime]. *)
Definition date_time_values (df : DataFrame) : result Series :=
  if has_column "Date/Time" df then getitem "Date/Time" df
  else
    result_bind (getitem "Date" df) (fun d =>
    result_bind (series_add_str d " ") (fun left =>
    result_bind (getitem "Time" df) (fun t =>
    series_add left t))).

(** Line 136: the [format] argument. *)
Definition date_time_format (df : DataFrame) : option string :=
  if has_column "Date/Time" df then Some DATETIME_FORMAT else None.

(** [pd.to_numeric(.., errors='coerce')] on one cell. *)
Definition to_numeric_scalar (v : scalar) : scalar :=
  match v with
  | Text s => match parse_number s with
              | Some x => Number x
              | None => NaN
              end
  | Number x => Number x
  | NaN => NaN
  | Timestamp t => Number (datetime_as_number (Some t))
  | NaT => Number (datetime_as_number None)
  end.

Definition to_numeric (s : Series) : Series :=
  {| dtype_of := Numeric; values := map to_numeric_scalar (values s) |}.

(** The right-hand side of line 139,
    [pd.to_numeric(df.get(col, pd.Series()), errors='coerce')], as the
    assignment aligns it with the frame's index: a column that is absent
    gives the empty series, which has no value for any row label. *)
Definition numeric_column (col : string) (df : DataFrame) : Series :=
  match assoc col (data df) with
  | Some s => to_numeric s
  | None => {| dtype_of := Numeric; values := repeat NaN (len df) |}
  end.

(** Line 139: the loop over the selection. *)
Fixpoint coerce_selected (l : loc) (selected_cols : list string) : M unit :=
  match selected_cols with
  | [] => mret tt
  | col :: rest =>
      df ← deref l;
      update l (setitem col (numeric_column col df));;
      coerce_selected l rest
  end.

(** Lines 133-136. *)
Definition convert_x_axis (l : loc) (x_col : string) : M unit :=
  if String.eqb x_col "Date/Time" then
    df ← deref l;
    values ← lift (date_time_values df);
    update l (setitem x_col (to_datetime (date_time_format df) values))
  else mret tt.

(** Lines 125-126: the frame to work on, the stored object itself or a
    downsampled copy. *)
Definition downsample (l0 : loc) (df0 : DataFrame) : M loc :=
  if MAX_POINTS <? len df0 then
    sliced ← lift (iloc_step (len df0 / MAX_POINTS) df0);
    alloc sliced
  else mret l0.

(** [prepare_data]: [None] stands for the pair [(None, None)], and
    [Some (l, x_col)] for the frame behind [l] with its x-axis column. *)
Definition prepare_data (selected_cols : list string)
  : M (option (loc * string)) :=
  stored ← store_get "data";
  match stored with
  | None => mret None
  | Some l0 =>
      df0 ← deref l0;
      if empty df0 then mret None
      else
        l ← downsample l0 df0;
        df ← deref l;
        x_col ← lift (x_col_of df);
        convert_x_axis l x_col;;
        coerce_selected l selected_cols;;
        mret (Some (l, x_col))
  end.

(** ** Upload and reset ([process_file_upload], [handle_file_upload]) *)

Definition unsupported_message : html :=
  Div [P "Unsupported file format. Please upload a valid CSV file."].

Definition error_message (e : exception) : html :=
  Div [P "There was an error processing the file."; P (exn_str e)].

Definition cleared_message : html :=
  P "Dataset cleared. Please upload a new file.".

Definition or_none (l : list string) : string :=
  match l with
  | [] => "None"
  | _ => PyStr.join ", " l
  end.

Definition show_nat (n : nat) : string := pretty n.

Definition success_message (filename : string) (df : DataFrame) : html :=
  Div [P ("Successfully uploaded: " +:+ filename);
       P ("Dataset has " +:+ show_nat (len df) +:+ " rows and "
          +:+ show_nat (length (columns df)) +:+ " columns.");
       P ("Detected Chiller Power columns: "
          +:+ or_none (Classifier.power_cols (columns df)));
       P ("Detected Supply Temp columns: "
          +:+ or_none (Classifier.supply_cols (columns df)));
       P ("Detected Return Temp columns: "
          +:+ or_none (Classifier.return_cols (columns df)));
       P ("All columns in dataset: " +:+ PyStr.join ", " (columns df))].

Definition status_message (df : DataFrame) : html :=
  Div [P "Previously uploaded file is still available.";
       P ("Dataset has " +:+ show_nat (len df) +:+ " rows and "
          +:+ show_nat (length (columns df)) +:+ " columns.")].

(** The body of the [try] block, lines 258-283. *)
Definition upload_body (decoded : bytes) (filename : option string) : M html :=
  match filename with
  | None => lift (Raise (Exception AttributeError
              "'NoneType' object has no attribute 'endswith'"))
  | Some name =>
      if negb (PyStr.endswith name ".csv") then mret unsupported_message
      else
        text ← lift (utf8_decode decoded);
        df ← lift (read_csv text);
        l ← alloc df;
        store_set "data" l;;
        mret (success_message name df)
  end.

(** [try: body except Exception as e: handler e] *)
Definition try_except {A} (body : M A) (handler : exception -> M A) : M A :=
  fun st =>
    match body st with
    | (Return a, st') => (Return a, st')
    | (Raise e, st') => handler e st'
    end.

(** [_, content_string = contents.split(',')] *)
Definition unpack_two (parts : list string) : result string :=
  match parts with
  | [_; content_string] => Return content_string
  | [] => Raise (Exception ValueError "not enough values to unpack (expected 2, got 0)")
  | [_] => Raise (Exception ValueError "not enough values to unpack (expected 2, got 1)")
  | _ => Raise (Exception ValueError "too many values to unpack (expected 2)")
  end.

(** A string is true unless it is [None] or empty. *)
Definition truthy (contents : option string) : bool :=
  match contents with
  | Some (String _ _) => true
  | _ => false
  end.

Definition process_file_upload (contents filename : option string) : M html :=
  if truthy contents then
    content_string ← lift (unpack_two (PyStr.split "," (default "" contents)));
    decoded ← lift (b64decode content_string);
    try_except (upload_body decoded filename)
               (fun e => mret (error_message e))
  else
    stored ← store_get "data";
    match stored with
    | Some l => df ← deref l; mret (status_message df)
    | None => mret (P "No file uploaded yet.")
    end.

(** [handle_file_upload]; [triggered_id] is [ctx.triggered_id]. *)
Definition handle_file_upload (triggered_id : option string)
    (contents : option string) (reset_clicks : option nat)
    (filename : option string) : M html :=
  if bool_decide (triggered_id = Some "reset-button") then
    store_clear;; mret cleared_message
  else process_file_upload contents filename.

End Dashboard.

(** ** An executable instance of the library interface

    It covers ASCII payloads, decimal numbers and the timestamp pattern,
    enough to run the handlers on concrete uploads. *)

Module Sample.

(** *** base64, decoded the lenient way: characters outside the alphabet are
    skipped, a complete padding ends the data. *)
Definition b64_value (c : ascii) : option nat :=
  let n := nat_of_ascii c in
  if (65 <=? n) && (n <=? 90) then Some (n - 65)
  else if (97 <=? n) && (n <=? 122) then Some (n - 71)
  else if (48 <=? n) && (n <=? 57) then Some (n + 4)
  else if n =? 43 then Some 62
  else if n =? 47 then Some 63
  else None.

Fixpoint b64_loop (l : list ascii) (quad_pos leftchar pads : nat)
    (out : list ascii) : result (list ascii) :=
  match l with
  | [] =>
      if quad_pos =? 0 then Return (rev out)
      else if quad_pos =? 1 then
        Raise (Exception BinasciiError
                 "Invalid base64-encoded string: number of data characters cannot be 1 more than a multiple of 4")
      else Raise (Exception BinasciiError "Incorrect padding")
  | c :: r =>
      if Ascii.eqb c "=" then
        if (2 <=? quad_pos) && (4 <=? quad_pos + S pads) then Return (rev out)
        else b64_loop r quad_pos leftchar (S pads) out
      else
        match b64_value c with
        | None => b64_loop r quad_pos leftchar pads out
        | Some v =>
            match quad_pos with
            | 0 => b64_loop r 1 v 0 out
            | 1 => b64_loop r 2 (v mod 16) 0
                     (ascii_of_nat (leftchar * 4 + v / 16) :: out)
            | 2 => b64_loop r 3 (v mod 4) 0
                     (ascii_of_nat (leftchar * 16 + v / 4) :: out)
            | _ => b64_loop r 0 0 0 (ascii_of_nat (leftchar * 64 + v) :: out)
            end
        end
  end.

Definition b64decode (s : string) : result bytes :=
  result_bind (b64_loop (list_ascii_of_string s) 0 0 0 [])
              (fun l => Return (string_of_list_ascii l)).

(** *** Text decoding, for ASCII payloads. *)
Definition utf8_decode (b : bytes) : result string :=
  if forallb (fun c => nat_of_ascii c <? 128) (list_ascii_of_string b)
  then Return b
  else Raise (Exception UnicodeDecodeError
                "'utf-8' codec can't decode byte: invalid start byte").

(** *** Decimal numbers: an optional sign, digits, an optional fraction. *)
Fixpoint digits_value (l : list ascii) (acc : nat) : option nat :=
  match l with
  | [] => Some acc
  | c :: r => match digit c with
              | Some d => digits_value r (10 * acc + d)
              | None => None
              end
  end.

Definition unsigned_number (s : string) : option Q :=
  match PyStr.split "." s with
  | [i] =>
      match list_ascii_of_string i with
      | [] => None
      | l => option_map (fun n => inject_Z (Z.of_nat n)) (digits_value l 0)
      end
  | [i; f] =>
      match list_ascii_of_string (i +:+ f) with
      | [] => None
      | l => option_map
               (fun n => Qmake (Z.of_nat n)
                               (Pos.of_nat (10 ^ String.length f)))
               (digits_value l 0)
      end
  | _ => None
  end.

Definition parse_number (s : string) : option Q :=
  match s with
  | String "-" r => option_map Qopp (unsigned_number r)
  | _ => unsigned_number s
  end.

(** *** Timestamps: nanoseconds since 1970-01-01. *)
Definition days_from_civil (y m d : Z) : Z :=
  let y' := (if m <=? 2 then y - 1 else y)%Z in
  let era := (y' / 400)%Z in
  let yoe := (y' - era * 400)%Z in
  let doy := ((153 * (if 2 <? m then m - 3 else m + 9) + 2) / 5 + d - 1)%Z in
  let doe := (yoe * 365 + yoe / 4 - yoe / 100 + doy)%Z in
  (era * 146097 + doe - 719468)%Z.

Definition datetime_as_number (t : option datetime) : Q :=
  match t with
  | None => inject_Z (- 2 ^ 63)
  | Some t =>
      let days := days_from_civil (Z.of_nat (year t)) (Z.of_nat (month t))
                                  (Z.of_nat (day t)) in
      inject_Z ((((days * 24 + Z.of_nat (hour t)) * 60 + Z.of_nat (minute t)) * 60
                 + Z.of_nat (second t)) * 1000000000)
  end.

Definition to_datetime_scalar (v : scalar) : scalar :=
  match v with
  | Text s => match parse_mdY_HMS s with
              | Some t => Timestamp t
              | None => NaT
              end
  | Timestamp t => Timestamp t
  | _ => NaT
  end.

Definition to_datetime (fmt : option string) (s : Series) : Series :=
  {| dtype_of := Datetime64; values := map to_datetime_scalar (values s) |}.

(** *** A comma-separated table with a header row. *)
Definition cell_of (s : string) : scalar :=
  match s with
  | EmptyString => NaN
  | _ => Text s
  end.

Definition numeric_cell (v : scalar) : bool :=
  match v with
  | Text s => match parse_number s with Some _ => true | None => false end
  | _ => true
  end.

Definition number_of (v : scalar) : scalar :=
  match v with
  | Text s => match parse_number s with Some x => Number x | None => NaN end
  | v => v
  end.

(** A column whose cells all read as numbers is numeric. *)
Definition infer_dtype (cells : list scalar) : Series :=
  if forallb numeric_cell cells
  then {| dtype_of := Numeric; values := map number_of cells |}
  else {| dtype_of := Object; values := cells |}.

Definition nonblank (line : string) : bool :=
  negb (String.eqb line "").

Definition read_csv (text : string) : result DataFrame :=
  match List.filter nonblank (PyStr.split "010" text) with
  | [] => Raise (Exception ParserError "No columns to parse from file")
  | header :: lines =>
      let names := PyStr.split "," header in
      let rows := map (PyStr.split ",") lines in
      if forallb (fun r => length r <=? length names) rows then
        Return {| index := seq 0 (length rows);
                  data := imap (fun j name =>
                            (name, infer_dtype
                               (map (fun r => cell_of (nth j r "")) rows)))
                            names |}
      else Raise (Exception ParserError "Error tokenizing data")
  end.

End Sample.

(** ** Reference points shared by the statements below *)

(** The state of a process that has just started. *)
Definition initial_state : State := {| heap := ∅; uploaded_data_store := ∅ |}.

(** A state whose store holds frame [df] behind reference [1]. *)
Definition state_with (df : DataFrame) : State :=
  {| heap := {[ 1%positive := df ]};
     uploaded_data_store := {[ "data" := 1%positive ]} |}.

(** The stride of line 126 and the frame [prepare_data] works on. *)
Definition stride (df : DataFrame) : nat := len df / 1000.

Definition working_frame (df : DataFrame) : DataFrame :=
  if 1000 <? len df then
    {| index := slice_step (stride df) (index df);
       data := map (fun cs => (fst cs, series_step (stride df) (snd cs))) (data df) |}
  else df.

(** The columns of a frame by name. *)
Definition column (c : string) (df : DataFrame) : option Series :=
  assoc c (data df).

(** Text or missing cells. *)
Definition text_or_null (v : scalar) : bool := is_text v || is_null v.

(** The columns "Date" and "Time", when they are what the x axis is built
    from, are text columns. *)
Definition dates_textual (df : DataFrame) : Prop :=
  has_column "Date/Time" df = false ->
  has_column "Date" df && has_column "Time" df = true ->
  forall d t, column "Date" df = Some d -> column "Time" df = Some t ->
    dtype_of d = Object /\ forallb text_or_null (values d) = true
    /\ forallb text_or_null (values t) = true.

(** [a + ' ' + b] on two cells of text columns. *)
Definition joined (a b : scalar) : scalar :=
  match a, b with
  | Text x, Text y => Text ((x +:+ " ") +:+ y)
  | _, _ => NaN
  end.

(** The effect of the loop of line 139 and of lines 133-136 on a frame, and
    the reference [prepare_data] works through. *)

Section Effects.
Context `{Library}.

Definition coerce_all (selected_cols : list string) (df : DataFrame) : DataFrame :=
  fold_left (fun d col => setitem col (numeric_column col d) d) selected_cols df.

Definition x_axis_frame (x_col : string) (df : DataFrame) : result DataFrame :=
  if String.eqb x_col "Date/Time" then
    result_bind (date_time_values df) (fun v =>
    Return (setitem x_col (to_datetime (date_time_format df) v) df))
  else Return df.

Definition working_loc (st : State) (l0 : loc) (df0 : DataFrame) : loc :=
  if 1000 <? len df0 then fresh (dom (heap st)) else l0.

Definition working_state (st : State) (l0 : loc) (df0 : DataFrame) : State :=
  if 1000 <? len df0 then
    {| heap := <[fresh (dom (heap st)) := working_frame df0]> (heap st);
       uploaded_data_store := uploaded_data_store st |}
  else st.

End Effects.

(** Several callbacks one after the other, with the result of each. *)
Fixpoint run_all {A} (ms : list (M A)) (st : State) : list (result A) * State :=
  match ms with
  | [] => ([], st)
  | m :: rest =>
      let (r, st1) := m st in
      let (rs, st2) := run_all rest st1 in
      (r :: rs, st2)
  end.

(** A frame of [n] rows with one power column. *)
Definition power_frame (n : nat) : DataFrame :=
  {| index := seq 0 n;
     data := [("Chiller1_Power",
               {| dtype_of := Numeric;
                  values := map (fun i => Number (inject_Z (Z.of_nat i)))
                                (seq 0 n) |})] |}.

Definition frame_1500 : DataFrame := power_frame 1500.

(** A header-only frame with the columns "Date" and "Time". *)
Definition dates_header_frame : DataFrame :=
  {| index := [];
     data := [("Date", {| dtype_of := Object; values := [] |});
              ("Time", {| dtype_of := Object; values := [] |})] |}.

(** One row with the columns "Date", "Time" and "Power1". *)
Definition dated_frame : DataFrame :=
  {| index := [0];
     data := [("Date", {| dtype_of := Object; values := [Text "01/02/2024"] |});
              ("Time", {| dtype_of := Object; values := [Text "03:04:05"] |});
              ("Power1", {| dtype_of := Numeric; values := [Number 5] |})] |}.

(** A header-only frame with a "Date/Time" column. *)
Definition datetime_header_frame : DataFrame :=
  {| index := [];
     data := [("Date/Time", {| dtype_of := Object; values := [] |});
              ("Power1", {| dtype_of := Object; values := [] |})] |}.

(** One row whose first and only column is a text column that the classifier
    takes for a power column. *)
Definition status_frame : DataFrame :=
  {| index := [0];
     data := [("Chiller Power", {| dtype_of := Object; values := [Text "on"] |})] |}.

(** One row whose "Date" column was read as numbers. *)
Definition numeric_dates_frame : DataFrame :=
  {| index := [0];
     data := [("Date", {| dtype_of := Numeric; values := [Number 20240102] |});
              ("Time", {| dtype_of := Object; values := [Text "03:04:05"] |});
              ("Power1", {| dtype_of := Numeric; values := [Number 5] |})] |}.

(** [v + ' '] on a cell of a text column. *)
Definition spaced (v : scalar) : scalar :=
  match v with
  | Text s => Text (s +:+ " ")
  | _ => NaN
  end.

(** ** Components, layout and pages ([setup_dashboard_app], [get_page_content]) *)

(** A rendered component without its styling: [Elem kind id children] is an
    html or bootstrap element, [Absent] is a [None] among the children. *)
#[warnings="-register-all"]
Inductive component :=
| Absent
| Str (s : string)
| Elem (kind : string) (id : option string) (children : list component)
| Checklist (id : string) (options : list (string * string)) (value : list string)
| Graph (id : string)
| Button (label : string) (id : string).

(** The ids of a component tree, in document order. *)
Fixpoint ids (c : component) : list string :=
  match c with
  | Elem _ i children =>
      (match i with Some x => [x] | None => [] end ++ flat_map ids children)%list
  | Checklist i _ _ => [i]
  | Graph i => [i]
  | Button _ i => [i]
  | Absent | Str _ => []
  end.

(** The graphs of a component tree. *)
Fixpoint graph_ids (c : component) : list string :=
  match c with
  | Elem _ _ children => flat_map graph_ids children
  | Graph i => [i]
  | _ => []
  end.

(** The checklists of a component tree: id, option values, selected values. *)
Fixpoint checklists (c : component)
  : list (string * list string * list string) :=
  match c with
  | Elem _ _ children => flat_map checklists children
  | Checklist i options value => [(i, map snd options, value)]
  | _ => []
  end.

(** The texts of a component tree. *)
Fixpoint texts (c : component) : list string :=
  match c with
  | Elem _ _ children => flat_map texts children
  | Str s => [s]
  | _ => []
  end.

Definition para (text : string) : component := Elem "P" None [Str text].

(** Lines 40-59: the layout. *)
Definition layout : component :=
  Elem "Container" None
    [Elem "Div" None [Elem "H1" None [Str "Data Consumption Tool"]];
     Elem "Div" (Some "nav-bar")
       [Elem "Div" (Some "nav-dashboard") [Str "Dashboard"];
        Elem "Div" (Some "nav-data-upload") [Str "Data Upload"];
        Elem "Div" (Some "nav-settings") [Str "Settings"]];
     Elem "Div" (Some "page-content") []].

Definition TABS : list string :=
  ["nav-dashboard"; "nav-data-upload"; "nav-settings"].

(** Lines 84 and 170: the tab a callback context stands for. [triggered] holds
    the [prop_id] of each entry of [ctx.triggered], and is empty for a context
    that counts as false. *)
Definition active_tab (triggered : list string) : string :=
  match triggered with
  | [] => "nav-data-upload"
  | prop_id :: _ => hd "" (PyStr.split "." prop_id)
  end.

(** *** Tab styles ([update_tab_styles]) *)

(** Style dictionaries; the number 1 of 'flex' is written as a text. *)
Definition STYLE_NON_EDITABLE : gmap string string :=
  <["outline" := "none"]> (<["userSelect" := "none"]> ∅).

Definition BASE_NAV_STYLE : gmap string string :=
  STYLE_NON_EDITABLE
  ∪ <["fontFamily" := "Arial, sans-serif"]>
      (<["margin" := "5px"]>
      (<["cursor" := "pointer"]>
      (<["padding" := "15px"]>
      (<["textAlign" := "center"]>
      (<["flex" := "1"]> ∅))))).

(** [d.update(other)]: the entries of [other] win. *)
Definition dict_update (d other : gmap string string) : gmap string string :=
  other ∪ d.

Definition active_style : gmap string string :=
  dict_update BASE_NAV_STYLE
    (<["color" := "white"]> (<["backgroundColor" := "#4fc3f7"]> ∅)).

Definition inactive_style : gmap string string :=
  dict_update BASE_NAV_STYLE
    (<["color" := "#333"]> (<["backgroundColor" := "#b3e5fc"]> ∅)).

(** [l.index(x)] *)
Fixpoint list_index (x : string) (l : list string) : result nat :=
  match l with
  | [] => Raise (Exception ValueError ("'" +:+ x +:+ "' is not in list"))
  | y :: r =>
      if String.eqb y x then Return 0
      else result_bind (list_index x r) (fun i => Return (S i))
  end.

Definition update_tab_styles (triggered : list string)
  : result (list (gmap string string)) :=
  let styles := [inactive_style; inactive_style; inactive_style] in
  result_bind (list_index (active_tab triggered) TABS) (fun i =>
  Return (<[i := active_style]> styles)).

(** *** Pages ([get_page_content], [update_page]) *)

(** Lines 185-189. *)
Definition sections (df : DataFrame)
  : list (string * string * list string * string) :=
  [("Chiller Power", "chiller-power-checklist",
    Classifier.power_cols (columns df), "chiller-power-graph");
   ("Supply Temperature", "supply-temp-checklist",
    Classifier.supply_cols (columns df), "supply-temp-graph");
   ("Return Temperature", "return-temp-checklist",
    Classifier.return_cols (columns df), "return-temp-graph")].

(** Python's [not l] and [any] on lists. *)
Definition is_empty_list {A} (l : list A) : bool :=
  match l with [] => true | _ => false end.

Definition any_nonempty (ls : list (list string)) : bool :=
  existsb (fun l => negb (is_empty_list l)) ls.

(** Lines 198-211: the card of one section. *)
Definition section_card (s : string * string * list string * string) : component :=
  let '(title, check_id, cols, graph_id) := s in
  Elem "Row" None [Elem "Col" None [Elem "Card" None
    [Elem "CardHeader" None [Elem "H5" None [Str title]];
     Elem "CardBody" None
       [Checklist check_id (map (fun col => (col, col)) cols) cols;
        (if is_empty_list cols
         then para ("No columns detected for " +:+ title +:+ ".")
         else Absent);
        Graph graph_id]]]].

(** Lines 191-212. *)
Definition dashboard_page (df : DataFrame) : component :=
  Elem "Div" None
    ((if negb (any_nonempty [Classifier.power_cols (columns df);
                             Classifier.supply_cols (columns df);
                             Classifier.return_cols (columns df)])
      then para ("Available columns in dataset: "
                 +:+ PyStr.join ", " (columns df))
      else Absent)
     :: map section_card (sections df)).

(** Lines 215-218. *)
Definition dashboard_placeholder : component :=
  Elem "Div" None
    [Elem "H3" None [Str "Dashboard"];
     para "Upload a dataset to view visualizations."].

(** Lines 222-240. *)
Definition upload_page : component :=
  Elem "Card" None [Elem "CardBody" None
    [para "Upload only .csv files";
     Elem "Upload" (Some "upload-data")
       [Elem "Div" None [Str "Drag and Drop or ";
                         Elem "A" None [Str "Select Files"]]];
     Button "Reset Dataset" "reset-button";
     Elem "Loading" (Some "loading-upload")
       [Elem "Div" (Some "upload-output") []]]].

(** Lines 243-245. *)
Definition settings_page : component :=
  Elem "Card" None [Elem "CardBody" None
    [para "Settings page under development."]].

Definition get_page_content (triggered : list string) : M component :=
  let tab_id := active_tab triggered in
  if String.eqb tab_id "nav-dashboard" then
    stored ← store_get "data";
    match stored with
    | Some l =>
        df ← deref l;
        if negb (empty df) then mret (dashboard_page df)
        else mret dashboard_placeholder
    | None => mret dashboard_placeholder
    end
  else if String.eqb tab_id "nav-data-upload" then mret upload_page
  else mret settings_page.

(** *** Graph callbacks (lines 144-165) *)

(** What [px.line] and [update_layout] were given: the table and its x column
    (none for the empty figure), the y columns, the title and the title of
    the y axis. *)
Record figure := Figure {
  fig_data : option (loc * string);
  fig_y : list string;
  fig_title : option string;
  fig_yaxis_title : option string }.

(** The loop variables of lines 144-148; [update_graph] is a closure over
    them. *)
Record graph_vars := GraphVars {
  graph_id : string;
  title : string;
  yaxis : string;
  input_id : string }.

Definition GRAPHS : list graph_vars :=
  [GraphVars "chiller-power-graph" "Chiller Power" "Power (kW)"
     "chiller-power-checklist";
   GraphVars "supply-temp-graph" "Chiller Water Supply Temperature"
     "Temperature (°C)" "supply-temp-checklist";
   GraphVars "return-temp-graph" "Chiller Water Return Temperature"
     "Temperature (°C)" "return-temp-checklist"].

(** A registered callback: the ids of its outputs, inputs and states. *)
Record callback := Callback {
  cb_outputs : list string;
  cb_inputs : list string;
  cb_states : list string }.

(** The loop of line 144: each turn assigns the loop variables and registers
    a callback whose decorator reads them at once. The closure itself reads
    [title] and [yaxis] when it is called, that is after the loop, when the
    variables hold what the last turn assigned. *)
Definition register_graphs : list callback * option graph_vars :=
  fold_left
    (fun acc vars =>
       ((fst acc ++ [Callback [graph_id vars] [input_id vars] []])%list,
        Some vars))
    GRAPHS ([], None).

(** All callbacks of [setup_dashboard_app], in the order of registration. *)
Definition callbacks : list callback :=
  ([Callback ["page-content"] TABS [];
    Callback TABS TABS [];
    Callback ["upload-output"] ["upload-data"; "reset-button"] ["upload-data"]]
   ++ fst register_graphs)%list.

Section Graphs.
Context `{Library}.

(** [cols or []] *)
Definition or_empty (cols : option (list string)) : list string :=
  default [] cols.

(** The body of [update_graph], with the loop variables it sees. *)
Definition update_graph (vars : graph_vars) (cols : option (list string))
  : M figure :=
  prepared ← prepare_data (or_empty cols);
  let fig :=
    match prepared with
    | Some (df, x_col) =>
        {| fig_data := Some (df, x_col); fig_y := or_empty cols;
           fig_title := Some (title vars); fig_yaxis_title := None |}
    | None =>
        {| fig_data := None; fig_y := []; fig_title := None;
           fig_yaxis_title := None |}
    end in
  mret {| fig_data := fig_data fig; fig_y := fig_y fig;
          fig_title := fig_title fig;
          fig_yaxis_title := Some (yaxis vars) |}.

(** A call of a registered graph callback once setup has run. *)
Definition call_graph_callback (cols : option (list string)) : M figure :=
  match snd register_graphs with
  | Some vars => update_graph vars cols
  | None => lift (Raise (Exception KeyError "no graph callback"))
  end.

(** *** Sequences of callbacks *)

Inductive event :=
| EvUpload (triggered_id contents : option string) (reset_clicks : option nat)
           (filename : option string)
| EvGraph (cols : option (list string))
| EvPage (triggered : list string).

Definition step (st : State) (ev : event) : State :=
  match ev with
  | EvUpload t c r f => snd (handle_file_upload t c r f st)
  | EvGraph cols => snd (call_graph_callback cols st)
  | EvPage triggered => snd (get_page_content triggered st)
  end.

Definition run (evs : list event) (st : State) : State := fold_left step evs st.

End Graphs.

(** The store has at most the key "data", which refers to a live frame with
    one cell per row in every column. *)
Definition store_ok (st : State) : Prop :=
  forall k l, uploaded_data_store st !! k = Some l ->
    k = "data" /\ exists df, heap st !! l = Some df /\ wf df.


(** * Properties *)

(** ** The sample library satisfies the interface *)

Lemma sample_to_datetime_coerce (fmt : option string) (s : Series) :
  Forall is_datetime (values (Sample.to_datetime fmt s)).
Proof.
  unfold Sample.to_datetime. simpl.
  induction (values s) as [|v l IH]; simpl; constructor; auto.
  destruct v as [txt| | | |]; simpl; auto.
  destruct (parse_mdY_HMS txt); simpl; auto.
Qed.

Lemma sample_to_datetime_pattern (fmt : option string) (s : Series)
    (ts : list datetime) :
  Forall2 follows_pattern (values s) ts ->
  values (Sample.to_datetime fmt s) = map Timestamp ts.
Proof.
  unfold Sample.to_datetime. simpl.
  induction 1 as [|v t l ts' [txt [-> Hp]] _ IH]; simpl.
  - reflexivity.
  - rewrite Hp, IH. reflexivity.
Qed.

Lemma sample_infer_dtype_length (cells : list scalar) :
  length (values (Sample.infer_dtype cells)) = length cells.
Proof.
  unfold Sample.infer_dtype. destruct (forallb _ cells); simpl; auto.
  apply length_map.
Qed.

Lemma sample_read_csv_wf (text : string) (df : DataFrame) :
  Sample.read_csv text = Return df -> wf df.
Proof.
  unfold Sample.read_csv.
  destruct (List.filter _ _) as [|header lines]; [discriminate|].
  destruct (forallb _ _); [|discriminate].
  intros [= <-]. unfold wf, len. simpl.
  apply Forall_forall. intros [name col] Hin.
  apply elem_of_lookup_imap in Hin.
  destruct Hin as (j & nm & [= -> ->] & _). simpl.
  rewrite sample_infer_dtype_length, !length_map, length_seq. reflexivity.
Qed.

#[export] Instance sample_library : Library := {|
  to_datetime := Sample.to_datetime;
  parse_number := Sample.parse_number;
  datetime_as_number := Sample.datetime_as_number;
  b64decode := Sample.b64decode;
  utf8_decode := Sample.utf8_decode;
  read_csv := Sample.read_csv;
  to_datetime_length := fun fmt s =>
    length_map Sample.to_datetime_scalar (values s);
  to_datetime_coerce := sample_to_datetime_coerce;
  to_datetime_pattern := fun fmt s ts _ => sample_to_datetime_pattern fmt s ts;
  read_csv_wf := sample_read_csv_wf |}.

(** ** Strings *)

Section StringFacts.
Import PyStr.

Lemma lower_app (a b : string) : lower (a +:+ b) = lower a +:+ lower b.
Proof. induction a as [|c a IH]; simpl; [reflexivity | now rewrite IH]. Qed.

Lemma lower_ascii_idem (c : ascii) : lower_ascii (lower_ascii c) = lower_ascii c.
Proof.
  destruct c as [[] [] [] [] [] [] [] []]; vm_compute; reflexivity.
Qed.

Lemma lower_idem (s : string) : lower (lower s) = lower s.
Proof.
  induction s as [|c s IH]; simpl; [reflexivity|].
  now rewrite lower_ascii_idem, IH.
Qed.

Lemma lower_length (s : string) : String.length (lower s) = String.length s.
Proof. induction s as [|c s IH]; simpl; auto. Qed.

(** A split of the folded string comes from a split of the string. *)
Lemma lower_split (s a b : string) :
  lower s = a +:+ b ->
  exists a0 b0, s = a0 +:+ b0 /\ lower a0 = a /\ lower b0 = b.
Proof.
  revert s. induction a as [|c a IH]; intros s Hs.
  - exists EmptyString, s. auto.
  - destruct s as [|c' s]; simpl in Hs; [discriminate|].
    injection Hs as Hc Hs. destruct (IH _ Hs) as (a0 & b0 & -> & Ha & Hb).
    exists (String c' a0), b0. simpl. now rewrite Hc, Ha.
Qed.

Lemma prefix_spec (p s : string) :
  String.prefix p s = true <-> exists post, s = p +:+ post.
Proof.
  revert s. induction p as [|c p IH]; intros s.
  - split; [intros _; exists s; reflexivity | intros _; now destruct s].
  - destruct s as [|c' s]; simpl.
    + split; [discriminate | intros [post Hp]; discriminate].
    + destruct (ascii_dec c c') as [->|Hne].
      * rewrite IH. split; intros [post Hp]; exists post.
        -- now rewrite Hp.
        -- now injection Hp.
      * split; [discriminate|]. intros [post Hp]. injection Hp as Hc _.
        congruence.
Qed.

(** [sub in s] holds exactly when [s] has [sub] as a substring. *)
Lemma contains_spec (sub s : string) :
  contains sub s = true <-> exists pre post, s = pre +:+ (sub +:+ post).
Proof.
  induction s as [|c s IH].
  - change (contains sub "") with (String.prefix sub "" || false).
    rewrite orb_false_r, prefix_spec. split.
    + intros [post Hp]. exists EmptyString, post. exact Hp.
    + intros (pre & post & Hp). destruct pre; [|discriminate].
      exists post. exact Hp.
  - change (contains sub (String c s))
      with (String.prefix sub (String c s) || contains sub s).
    rewrite orb_true_iff, IH, prefix_spec. split.
    + intros [[post Hp] | (pre & post & Hp)].
      * exists EmptyString, post. exact Hp.
      * exists (String c pre), post. simpl. now rewrite Hp.
    + intros (pre & post & Hp). destruct pre as [|c' pre].
      * left. exists post. exact Hp.
      * right. simpl in Hp. injection Hp as _ Hp. exists pre, post. exact Hp.
Qed.

(** The test the classifier runs, [kw in col.lower()] for a lower-case
    keyword, is containment up to case. *)
Lemma contains_lower_ci (kw s : string) :
  lower kw = kw -> (contains kw (lower s) = true <-> ci_contains kw s).
Proof.
  intros Hkw. rewrite contains_spec. unfold ci_contains. split.
  - intros (pre & post & Hs).
    destruct (lower_split _ _ _ Hs) as (pre0 & rest & -> & Hpre & Hrest).
    destruct (lower_split _ _ _ Hrest) as (mid & post0 & -> & Hmid & Hpost).
    exists pre0, mid, post0. split; [reflexivity | congruence].
  - intros (pre & mid & post & -> & Hmid).
    exists (lower pre), (lower post).
    rewrite !lower_app. congruence.
Qed.

End StringFacts.

(** ** Column classifier *)

Section ClassifierFacts.
Import PyStr Classifier.

Lemma filter_set_determined (f : string -> bool) (l1 l2 : list string) :
  list_to_set l1 =@{gset string} list_to_set l2 ->
  list_to_set (List.filter f l1) =@{gset string} list_to_set (List.filter f l2).
Proof.
  intros Heq. apply set_eq. intros x.
  rewrite !elem_of_list_to_set, !list_elem_of_In, !filter_In.
  rewrite <- !list_elem_of_In.
  rewrite <- (elem_of_list_to_set (C := gset string) x l1).
  rewrite <- (elem_of_list_to_set (C := gset string) x l2).
  now rewrite Heq.
Qed.

Lemma filter_idem (f : string -> bool) (l : list string) :
  List.filter f (List.filter f l) = List.filter f l.
Proof.
  induction l as [|x l IH]; simpl; [reflexivity|].
  destruct (f x) eqn:Hx; simpl; [rewrite Hx, IH|]; auto.
Qed.

(** C4. A column name is classified as Power exactly when it contains, up to
  case, both "chiller" and "power"; as SupplyTemp exactly when it contains
  "supply" or "chws" and also "temp" or "t"; as ReturnTemp exactly when it
  contains "return", "chwr" or "ret" and also "temp" or "t". For the
  columns Chiller1_Power, CHWS_Temp, Timestamp this gives Power =
  {Chiller1_Power}, SupplyTemp = {CHWS_Temp} and no ReturnTemp column. *)
Theorem classify_rules (cols : list string) (col : string) :
(In col (power_cols cols) <->
   In col cols /\ ci_contains "chiller" col /\ ci_contains "power" col)
/\ (In col (supply_cols cols) <->
      In col cols
      /\ (ci_contains "supply" col \/ ci_contains "chws" col)
      /\ (ci_contains "temp" col \/ ci_contains "t" col))
/\ (In col (return_cols cols) <->
      In col cols
      /\ (ci_contains "return" col \/ ci_contains "chwr" col
          \/ ci_contains "ret" col)
      /\ (ci_contains "temp" col \/ ci_contains "t" col))
/\ power_cols ["Chiller1_Power"; "CHWS_Temp"; "Timestamp"] = ["Chiller1_Power"]
/\ supply_cols ["Chiller1_Power"; "CHWS_Temp"; "Timestamp"] = ["CHWS_Temp"]
/\ return_cols ["Chiller1_Power"; "CHWS_Temp"; "Timestamp"] = [].
Proof.
unfold power_cols, supply_cols, return_cols.
rewrite !filter_In. unfold is_power, is_supply, is_return.
rewrite !andb_true_iff, !orb_true_iff.
rewrite !contains_lower_ci by reflexivity.
repeat split; try tauto; vm_compute; reflexivity.
Qed.

(** C10. The three category sets depend only on the set of column names, not
  on the order or the multiplicity of the names in the list, and
  classifying a category's members again gives the same members. *)
Theorem classify_set_determined (l1 l2 : list string) :
list_to_set l1 =@{gset string} list_to_set l2 ->
list_to_set (power_cols l1) =@{gset string} list_to_set (power_cols l2)
/\ list_to_set (supply_cols l1) =@{gset string} list_to_set (supply_cols l2)
/\ list_to_set (return_cols l1) =@{gset string} list_to_set (return_cols l2)
/\ power_cols (power_cols l1) = power_cols l1
/\ supply_cols (supply_cols l1) = supply_cols l1
/\ return_cols (return_cols l1) = return_cols l1.
Proof.
intros Heq. unfold power_cols, supply_cols, return_cols.
repeat split; auto using filter_set_determined, filter_idem.
Qed.

Lemma classify_set_determined_witness :
list_to_set (power_cols ["CHWS_Temp"; "Chiller1_Power"; "CHWS_Temp"])
=@{gset string} list_to_set (power_cols ["Chiller1_Power"; "CHWS_Temp"])
/\ list_to_set (supply_cols ["CHWS_Temp"; "Chiller1_Power"; "CHWS_Temp"])
   =@{gset string} list_to_set (supply_cols ["Chiller1_Power"; "CHWS_Temp"]).
Proof.
assert (Hset : list_to_set ["CHWS_Temp"; "Chiller1_Power"; "CHWS_Temp"]
               =@{gset string} list_to_set ["Chiller1_Power"; "CHWS_Temp"])
  by (vm_compute; reflexivity).
destruct (classify_set_determined _ _ Hset) as (Hp & Hs & _).
split; assumption.
Defined.

End ClassifierFacts.

(** ** Fixed-stride slicing *)

Section Slicing.
Context {A : Type}.
Implicit Types l : list A.

Lemma stride_from_lookup (k skip i : nat) l :
  1 <= k -> stride_from k skip l !! i = l !! (skip + i * k).
Proof.
  intros Hk. revert skip i. induction l as [|x r IH]; intros skip i.
  - reflexivity.
  - destruct skip as [|n]; simpl.
    + destruct i as [|i']; [reflexivity|]. simpl. rewrite IH.
      replace (k + i' * k) with (S (k - 1 + i' * k)) by lia. reflexivity.
    + rewrite IH. reflexivity.
Qed.

(** Position [i] of [l[::k]] is position [i * k] of [l]. *)
Lemma slice_step_lookup (k i : nat) l :
  1 <= k -> slice_step k l !! i = l !! (i * k).
Proof. intros Hk. unfold slice_step. now rewrite stride_from_lookup. Qed.

Lemma slice_step_lt (k i : nat) l :
  1 <= k -> (i < length (slice_step k l) <-> i * k < length l).
Proof.
  intros Hk. rewrite <- !lookup_lt_is_Some, slice_step_lookup by exact Hk.
  reflexivity.
Qed.

(** [len(l[::k])] is the length divided by [k], rounded up. *)
Lemma slice_step_length (k : nat) l :
  1 <= k -> length (slice_step k l) = (length l + k - 1) / k.
Proof.
  intros Hk.
  pose proof (slice_step_lt k (length (slice_step k l)) l Hk) as Hm.
  assert (Hge : length l <= length (slice_step k l) * k).
  { destruct (Nat.le_gt_cases (length l) (length (slice_step k l) * k)) as [|Hc];
      [assumption|]. apply Hm in Hc. lia. }
  assert (Hprev : length (slice_step k l) = 0
                  \/ (length (slice_step k l) - 1) * k < length l).
  { destruct (Nat.eq_dec (length (slice_step k l)) 0) as [|Hpos]; [now left|].
    right. apply (proj1 (slice_step_lt k _ l Hk)). lia. }
  apply (Nat.div_unique _ _ _ (length l + k - 1 - k * length (slice_step k l)));
    nia.
Qed.

Lemma stride_from_sublist (k skip : nat) l : stride_from k skip l `sublist_of` l.
Proof.
  revert skip. induction l as [|x r IH]; intros skip; simpl.
  - constructor.
  - destruct skip; [apply sublist_skip | apply sublist_cons]; apply IH.
Qed.

(** The retained elements keep their relative order. *)
Lemma slice_step_sublist (k : nat) l : slice_step k l `sublist_of` l.
Proof. apply stride_from_sublist. Qed.

Lemma slice_step_one l : slice_step 1 l = l.
Proof.
  unfold slice_step. induction l as [|x r IH]; simpl; [reflexivity|].
  now rewrite IH.
Qed.

Lemma slice_step_forallb (f : A -> bool) (k : nat) l :
  forallb f l = true -> forallb f (slice_step k l) = true.
Proof.
  rewrite !forallb_forall. intros Hall x Hin. apply Hall.
  rewrite <- list_elem_of_In in *.
  eapply elem_of_sublist; [exact Hin | apply slice_step_sublist].
Qed.

End Slicing.

(** ** Frames *)

Section FrameFacts.

Lemma has_column_assoc (c : string) (df : DataFrame) :
  has_column c df = true <-> is_Some (assoc c (data df)).
Proof.
  unfold has_column, columns. induction (data df) as [|[c' s] r IH]; simpl.
  - split; [discriminate | intros [? [=]]].
  - destruct (String.eqb c c'); simpl; [|exact IH].
    split; [eauto | reflexivity].
Qed.

Lemma has_column_false (c : string) (df : DataFrame) :
  has_column c df = false <-> assoc c (data df) = None.
Proof.
  rewrite <- not_true_iff_false, has_column_assoc, eq_None_not_Some. reflexivity.
Qed.

Lemma assoc_set_lookup (c c' : string) (s : Series) (l : list (string * Series)) :
  assoc c (assoc_set c' s l) = if String.eqb c c' then Some s else assoc c l.
Proof.
  induction l as [|[c'' s''] r IH]; simpl.
  - destruct (String.eqb c c'); reflexivity.
  - destruct (String.eqb c' c'') eqn:E1; simpl.
    + apply String.eqb_eq in E1. subst c''.
      destruct (String.eqb c c'); reflexivity.
    + rewrite IH. destruct (String.eqb c c') eqn:E2; [|reflexivity].
      apply String.eqb_eq in E2. subst c'. now rewrite E1.
Qed.

Lemma column_setitem (c c' : string) (s : Series) (df : DataFrame) :
  column c (setitem c' s df) = if String.eqb c c' then Some s else column c df.
Proof. apply assoc_set_lookup. Qed.

Lemma assoc_map_step (c : string) (k : nat) (l : list (string * Series)) :
  assoc c (map (fun cs => (fst cs, series_step k (snd cs))) l)
  = series_step k <$> assoc c l.
Proof.
  induction l as [|[c' s] r IH]; simpl; [reflexivity|].
  destruct (String.eqb c c'); [reflexivity | exact IH].
Qed.

Lemma stride_pos (df : DataFrame) : 1000 < len df -> 1 <= stride df.
Proof.
  intros Hn. unfold stride.
  apply (Nat.div_le_lower_bound (len df) 1000 1); lia.
Qed.

(** The frame worked on is the strided slice exactly when there are more than
    1000 rows. *)
Lemma working_frame_large (df : DataFrame) :
  1000 < len df -> iloc_step (stride df) df = Return (working_frame df).
Proof.
  intros Hn. pose proof (stride_pos df Hn) as Hk.
  unfold iloc_step, working_frame.
  destruct (Nat.eqb_spec (stride df) 0) as [E|_]; [lia|].
  destruct (Nat.ltb_spec 1000 (len df)); [reflexivity | lia].
Qed.

Lemma working_frame_small (df : DataFrame) :
  len df <= 1000 -> working_frame df = df.
Proof.
  intros Hn. unfold working_frame.
  destruct (Nat.ltb_spec 1000 (len df)); [lia | reflexivity].
Qed.

Lemma working_frame_columns (df : DataFrame) :
  columns (working_frame df) = columns df.
Proof.
  unfold working_frame, columns. destruct (1000 <? len df); [|reflexivity].
  simpl. rewrite map_map. reflexivity.
Qed.

Lemma working_frame_has_column (c : string) (df : DataFrame) :
  has_column c (working_frame df) = has_column c df.
Proof. unfold has_column. now rewrite working_frame_columns. Qed.

Lemma working_frame_column (c : string) (df : DataFrame) :
  column c (working_frame df)
  = if 1000 <? len df then series_step (stride df) <$> column c df
    else column c df.
Proof.
  unfold working_frame, column. destruct (1000 <? len df); [|reflexivity].
  apply assoc_map_step.
Qed.

Lemma working_frame_len (df : DataFrame) :
  len (working_frame df)
  = if 1000 <? len df then (len df + stride df - 1) / stride df else len df.
Proof.
  unfold working_frame. destruct (Nat.ltb_spec 1000 (len df)) as [Hn|Hn];
    [|reflexivity].
  unfold len at 1. simpl. apply slice_step_length, stride_pos, Hn.
Qed.

Lemma working_frame_nonempty (df : DataFrame) :
  empty df = false -> empty (working_frame df) = false.
Proof.
  unfold empty. rewrite working_frame_columns, !orb_false_iff.
  intros [Hlen Hcols]. split; [|exact Hcols].
  apply Nat.eqb_neq in Hlen. apply Nat.eqb_neq.
  unfold working_frame. destruct (Nat.ltb_spec 1000 (len df)) as [Hn|Hn];
    [|exact Hlen].
  unfold len. simpl.
  pose proof (slice_step_lt (stride df) 0 (index df) (stride_pos df Hn)) as H0.
  unfold len in *. lia.
Qed.

Lemma working_frame_wf (df : DataFrame) : wf df -> wf (working_frame df).
Proof.
  unfold working_frame. destruct (Nat.ltb_spec 1000 (len df)) as [Hn|Hn];
    [|auto].
  unfold wf, len. simpl. rewrite !Forall_forall. intros Hwf [c s] Hin.
  apply list_elem_of_fmap in Hin. destruct Hin as ([c0 s0] & [= -> ->] & Hin).
  simpl. rewrite !slice_step_length by (apply stride_pos, Hn).
  specialize (Hwf _ Hin). simpl in Hwf. unfold len in Hwf. now rewrite Hwf.
Qed.

Lemma x_col_of_total (df : DataFrame) :
  empty df = false -> exists x, x_col_of df = Return x.
Proof.
  unfold empty, x_col_of. rewrite orb_false_iff. intros [_ Hcols].
  destruct (has_column "Date/Time" df); [eauto|].
  destruct (has_column "Date" df && has_column "Time" df); [eauto|].
  destruct (columns df); [discriminate | eauto].
Qed.

End FrameFacts.

(** ** Running [prepare_data] *)

Section PrepareFacts.
Context `{Library}.

Lemma bind_run {A B} (m : M A) (k : A -> M B) (st : State) :
  (m ≫= k) st = match m st with
                | (Return a, st') => k a st'
                | (Raise e, st') => (Raise e, st')
                end.
Proof. reflexivity. Qed.

Lemma alter_as_insert (f : DataFrame -> DataFrame) (l : loc) (df : DataFrame)
    (h : gmap loc DataFrame) :
  h !! l = Some df -> alter f l h = <[l := f df]> h.
Proof.
  intros Hl. apply map_eq. intros i. destruct (decide (l = i)) as [->|Hne].
  - rewrite lookup_alter_eq, lookup_insert_eq, Hl. reflexivity.
  - rewrite lookup_alter_ne, lookup_insert_ne by exact Hne. reflexivity.
Qed.

Lemma coerce_all_cons (col : string) (rest : list string) (df : DataFrame) :
  coerce_all (col :: rest) df
  = coerce_all rest (setitem col (numeric_column col df) df).
Proof. reflexivity. Qed.

Lemma downsample_run (st : State) (l0 : loc) (df0 : DataFrame) :
  downsample l0 df0 st = (Return (working_loc st l0 df0), working_state st l0 df0).
Proof.
  unfold downsample, working_loc, working_state, MAX_POINTS.
  destruct (Nat.ltb_spec 1000 (len df0)) as [Hn|Hn]; [|reflexivity].
  rewrite bind_run. unfold lift, stride. fold (stride df0).
  rewrite (working_frame_large df0 Hn). reflexivity.
Qed.

Lemma working_loc_fresh (st : State) (l0 : loc) (df0 : DataFrame) :
  1000 < len df0 -> heap st !! working_loc st l0 df0 = None.
Proof.
  intros Hn. unfold working_loc.
  destruct (Nat.ltb_spec 1000 (len df0)); [|lia].
  apply not_elem_of_dom, is_fresh.
Qed.

Lemma working_state_lookup (st : State) (l0 : loc) (df0 : DataFrame) :
  heap st !! l0 = Some df0 ->
  heap (working_state st l0 df0) !! working_loc st l0 df0
  = Some (working_frame df0).
Proof.
  intros Hl. unfold working_state, working_loc, working_frame.
  destruct (Nat.ltb_spec 1000 (len df0)) as [Hn|Hn]; simpl.
  - apply lookup_insert_eq.
  - exact Hl.
Qed.

Lemma working_state_store (st : State) (l0 : loc) (df0 : DataFrame) :
  uploaded_data_store (working_state st l0 df0) = uploaded_data_store st.
Proof. unfold working_state. destruct (1000 <? len df0); reflexivity. Qed.

(** The stored object survives the construction of the working frame. *)
Lemma working_state_stored (st : State) (l0 : loc) (df0 : DataFrame) :
  heap st !! l0 = Some df0 -> 1000 < len df0 ->
  heap (working_state st l0 df0) !! l0 = Some df0.
Proof.
  intros Hl Hn. unfold working_state.
  destruct (Nat.ltb_spec 1000 (len df0)); [|lia]. simpl.
  rewrite lookup_insert_ne; [exact Hl|].
  intros E. pose proof (is_fresh (dom (heap st))) as Hf.
  rewrite E in Hf. apply Hf, elem_of_dom. eauto.
Qed.

Lemma convert_x_axis_run (st : State) (l : loc) (df : DataFrame) (x : string) :
  heap st !! l = Some df ->
  convert_x_axis l x st
  = match x_axis_frame x df with
    | Return df1 => (Return tt, {| heap := <[l := df1]> (heap st);
                                   uploaded_data_store := uploaded_data_store st |})
    | Raise e => (Raise e, st)
    end.
Proof.
  intros Hl. unfold convert_x_axis, x_axis_frame.
  destruct (String.eqb x "Date/Time").
  - rewrite bind_run. unfold deref. rewrite Hl. rewrite bind_run. unfold lift.
    destruct (date_time_values df) as [v|e]; simpl; [|reflexivity].
    unfold update. now rewrite (alter_as_insert _ _ _ _ Hl).
  - rewrite insert_id by exact Hl. destruct st; reflexivity.
Qed.

Lemma coerce_selected_run (sel : list string) (st : State) (l : loc)
    (df : DataFrame) :
  heap st !! l = Some df ->
  coerce_selected l sel st
  = (Return tt, {| heap := <[l := coerce_all sel df]> (heap st);
                   uploaded_data_store := uploaded_data_store st |}).
Proof.
  revert st df. induction sel as [|col rest IH]; intros st df Hl.
  - simpl. rewrite insert_id by exact Hl. destruct st; reflexivity.
  - rewrite coerce_all_cons. cbn [coerce_selected].
    rewrite bind_run. unfold deref at 1. rewrite Hl.
    rewrite bind_run. unfold update at 1.
    rewrite (alter_as_insert _ _ _ _ Hl).
    erewrite IH by (simpl; apply lookup_insert_eq).
    simpl. now rewrite insert_insert_eq.
Qed.

(** What [prepare_data] does when the store holds a frame that is not empty. *)
Lemma prepare_data_run (sel : list string) (st : State) (l0 : loc)
    (df0 : DataFrame) :
  uploaded_data_store st !! "data" = Some l0 ->
  heap st !! l0 = Some df0 ->
  empty df0 = false ->
  prepare_data sel st
  = match x_col_of (working_frame df0) with
    | Raise e => (Raise e, working_state st l0 df0)
    | Return x =>
        match x_axis_frame x (working_frame df0) with
        | Raise e => (Raise e, working_state st l0 df0)
        | Return df1 =>
            (Return (Some (working_loc st l0 df0, x)),
             {| heap := <[working_loc st l0 df0 := coerce_all sel df1]>
                          (heap (working_state st l0 df0));
                uploaded_data_store := uploaded_data_store st |})
        end
    end.
Proof.
  intros Hs Hl He. unfold prepare_data.
  rewrite bind_run. unfold store_get at 1. rewrite Hs.
  rewrite bind_run. unfold deref at 1. rewrite Hl, He.
  rewrite bind_run, downsample_run.
  pose proof (working_state_lookup st l0 df0 Hl) as Hw.
  rewrite bind_run. unfold deref at 1. rewrite Hw.
  rewrite bind_run. unfold lift at 1.
  destruct (x_col_of (working_frame df0)) as [x|e]; [|reflexivity].
  rewrite bind_run, (convert_x_axis_run _ _ _ _ Hw).
  destruct (x_axis_frame x (working_frame df0)) as [df1|e]; [|reflexivity].
  rewrite bind_run.
  erewrite coerce_selected_run by (simpl; apply lookup_insert_eq).
  simpl. rewrite insert_insert_eq, working_state_store. reflexivity.
Qed.

Lemma prepare_data_no_data (sel : list string) (st : State) :
  uploaded_data_store st !! "data" = None ->
  prepare_data sel st = (Return None, st).
Proof.
  intros Hs. unfold prepare_data. rewrite bind_run. unfold store_get.
  now rewrite Hs.
Qed.

Lemma prepare_data_empty (sel : list string) (st : State) (l0 : loc)
    (df0 : DataFrame) :
  uploaded_data_store st !! "data" = Some l0 ->
  heap st !! l0 = Some df0 ->
  empty df0 = true ->
  prepare_data sel st = (Return None, st).
Proof.
  intros Hs Hl He. unfold prepare_data.
  rewrite bind_run. unfold store_get at 1. rewrite Hs.
  rewrite bind_run. unfold deref at 1. now rewrite Hl, He.
Qed.

End PrepareFacts.

(** ** Effect of the conversions on a frame *)

Section ConversionFacts.
Context `{Library}.

Lemma to_numeric_scalar_idem (v : scalar) :
  to_numeric_scalar (to_numeric_scalar v) = to_numeric_scalar v.
Proof.
  destruct v as [s| | | |]; simpl; try reflexivity.
  destruct (parse_number s); reflexivity.
Qed.

Lemma to_numeric_scalar_numeric (v : scalar) : is_numeric (to_numeric_scalar v).
Proof.
  destruct v as [s| | | |]; simpl; auto. destruct (parse_number s); simpl; auto.
Qed.

Lemma to_numeric_idem (s : Series) : to_numeric (to_numeric s) = to_numeric s.
Proof.
  unfold to_numeric. simpl. f_equal. rewrite map_map.
  apply map_ext. intros v. apply to_numeric_scalar_idem.
Qed.

Lemma numeric_column_numeric (c : string) (df : DataFrame) :
  Forall is_numeric (values (numeric_column c df)).
Proof.
  unfold numeric_column. destruct (assoc c (data df)) as [s|]; simpl.
  - apply Forall_forall. intros v Hv. apply list_elem_of_fmap in Hv.
    destruct Hv as (v0 & -> & _). apply to_numeric_scalar_numeric.
  - apply Forall_forall. intros v Hv. apply list_elem_of_In, repeat_spec in Hv.
    subst v. exact I.
Qed.

Lemma numeric_column_length (c : string) (df : DataFrame) :
  wf df -> is_Some (column c df) ->
  length (values (numeric_column c df)) = len df.
Proof.
  unfold wf, numeric_column, column. intros Hwf [s Hs]. rewrite Hs. simpl.
  rewrite length_map. rewrite Forall_forall in Hwf.
  assert (Hin : (c, s) ∈ data df).
  { clear Hwf. induction (data df) as [|[c' s'] r IH]; simpl in Hs; [discriminate|].
    destruct (String.eqb c c') eqn:E.
    - apply String.eqb_eq in E. injection Hs as ->. subst. left.
    - right. auto. }
  exact (Hwf _ Hin).
Qed.

Lemma numeric_column_setitem_same (c : string) (df : DataFrame) :
  numeric_column c (setitem c (numeric_column c df) df) = numeric_column c df.
Proof.
  unfold numeric_column at 1. fold (column c (setitem c (numeric_column c df) df)).
  rewrite column_setitem, String.eqb_refl.
  unfold numeric_column. destruct (assoc c (data df)) as [s|].
  - apply to_numeric_idem.
  - unfold to_numeric. simpl. f_equal.
    induction (len df) as [|n IH]; simpl; [reflexivity | now rewrite IH].
Qed.

Lemma numeric_column_setitem_other (c c' : string) (s : Series) (df : DataFrame) :
  String.eqb c c' = false ->
  numeric_column c (setitem c' s df) = numeric_column c df.
Proof.
  intros Hne. unfold numeric_column.
  fold (column c (setitem c' s df)). rewrite column_setitem, Hne.
  reflexivity.
Qed.

Lemma coerce_all_index (sel : list string) (df : DataFrame) :
  index (coerce_all sel df) = index df.
Proof.
  revert df. induction sel as [|col rest IH]; intros df; [reflexivity|].
  now rewrite coerce_all_cons, IH.
Qed.

Lemma coerce_all_len (sel : list string) (df : DataFrame) :
  len (coerce_all sel df) = len df.
Proof. unfold len. now rewrite coerce_all_index. Qed.

(** After the loop a selected column holds the numeric coercion of what it
    held before (all missing if it was absent); other columns are as before. *)
Lemma coerce_all_column (sel : list string) (c : string) (df : DataFrame) :
  column c (coerce_all sel df)
  = if existsb (String.eqb c) sel then Some (numeric_column c df)
    else column c df.
Proof.
  revert df. induction sel as [|col rest IH]; intros df; [reflexivity|].
  rewrite coerce_all_cons, IH. cbn [existsb].
  destruct (String.eqb c col) eqn:E.
  - apply String.eqb_eq in E. subst col. simpl.
    rewrite numeric_column_setitem_same, column_setitem, String.eqb_refl.
    destruct (existsb _ rest); reflexivity.
  - simpl. rewrite column_setitem, E.
    rewrite (numeric_column_setitem_other _ _ _ _ E). reflexivity.
Qed.

Lemma x_axis_frame_index (x : string) (df df1 : DataFrame) :
  x_axis_frame x df = Return df1 -> index df1 = index df.
Proof.
  unfold x_axis_frame. destruct (String.eqb x "Date/Time").
  - destruct (date_time_values df); simpl; [|discriminate]. now intros [= <-].
  - now intros [= <-].
Qed.

Lemma x_axis_frame_other (x c : string) (df df1 : DataFrame) :
  x_axis_frame x df = Return df1 -> String.eqb c "Date/Time" = false ->
  column c df1 = column c df.
Proof.
  unfold x_axis_frame. intros Hx Hc. destruct (String.eqb x "Date/Time") eqn:E.
  - apply String.eqb_eq in E. subst x.
    destruct (date_time_values df); simpl in Hx; [|discriminate].
    injection Hx as <-. now rewrite column_setitem, Hc.
  - now injection Hx as <-.
Qed.

Lemma x_axis_frame_not_time (x : string) (df : DataFrame) :
  String.eqb x "Date/Time" = false -> x_axis_frame x df = Return df.
Proof. unfold x_axis_frame. now intros ->. Qed.

End ConversionFacts.

(** ** The x axis *)

Section AxisFacts.
Context `{Library}.

Lemma add_str_cells (vs : list scalar) :
  forallb text_or_null vs = true ->
  result_mapM (add_str_cell " ") vs = Return (map spaced vs).
Proof.
  induction vs as [|v vs IH]; simpl; [reflexivity|].
  rewrite andb_true_iff. intros [Hv Hvs]. rewrite (IH Hvs).
  destruct v; simpl in *; try reflexivity; discriminate.
Qed.

Lemma add_cells (l r : list scalar) :
  forallb text_or_null l = true -> forallb text_or_null r = true ->
  result_mapM add_cell (combine (map spaced l) r) = Return (zip_with joined l r).
Proof.
  revert r. induction l as [|a l IH]; intros r Hl Hr; [reflexivity|].
  destruct r as [|b r]; [reflexivity|]. simpl in *.
  apply andb_true_iff in Hl as [Ha Hl]. apply andb_true_iff in Hr as [Hb Hr].
  rewrite (IH r Hl Hr).
  destruct a, b; simpl in *; try reflexivity; discriminate.
Qed.

(** With text columns "Date" and "Time", the values handed to the parser are
    the two cells joined by one space. *)
Lemma date_time_values_joined (df : DataFrame) (d t : Series) :
  has_column "Date/Time" df = false ->
  column "Date" df = Some d -> column "Time" df = Some t ->
  dtype_of d = Object ->
  forallb text_or_null (values d) = true ->
  forallb text_or_null (values t) = true ->
  date_time_values df
  = Return {| dtype_of := Object;
              values := zip_with joined (values d) (values t) |}.
Proof.
  intros Hdt Hd Ht Hobj Hvd Hvt. unfold date_time_values, getitem.
  unfold column in Hd, Ht. rewrite Hdt, Hd, Ht. simpl.
  unfold series_add_str, object_dtype. rewrite Hobj, (add_str_cells _ Hvd).
  simpl. unfold series_add. simpl. now rewrite (add_cells _ _ Hvd Hvt).
Qed.

Lemma date_time_values_literal (df : DataFrame) (s : Series) :
  has_column "Date/Time" df = true -> column "Date/Time" df = Some s ->
  date_time_values df = Return s.
Proof.
  intros Hdt Hs. unfold date_time_values, getitem. unfold column in Hs.
  now rewrite Hdt, Hs.
Qed.

Lemma first_column_has (c : string) (rest : list string) (df : DataFrame) :
  columns df = c :: rest -> has_column c df = true.
Proof.
  unfold has_column. intros ->. simpl. now rewrite String.eqb_refl.
Qed.

(** The three cases of lines 129-130. *)
Lemma x_col_of_cases (df : DataFrame) (x : string) :
  x_col_of df = Return x ->
  (has_column "Date/Time" df = true /\ x = "Date/Time")
  \/ (has_column "Date/Time" df = false
      /\ has_column "Date" df && has_column "Time" df = true
      /\ x = "Date/Time")
  \/ (has_column "Date/Time" df = false
      /\ has_column "Date" df && has_column "Time" df = false
      /\ (exists rest, columns df = x :: rest)
      /\ String.eqb x "Date/Time" = false).
Proof.
  unfold x_col_of. destruct (has_column "Date/Time" df) eqn:Hdt.
  - intros [= <-]. now left.
  - destruct (has_column "Date" df && has_column "Time" df).
    + intros [= <-]. right. now left.
    + destruct (columns df) as [|c rest] eqn:Hc; [discriminate|].
      intros [= <-]. right. right. repeat split; eauto.
      destruct (String.eqb c "Date/Time") eqn:E; [|reflexivity].
      apply String.eqb_eq in E. subst c.
      rewrite (first_column_has _ _ _ Hc) in Hdt. discriminate.
Qed.

Lemma dates_textual_working (df : DataFrame) :
  dates_textual df -> dates_textual (working_frame df).
Proof.
  unfold dates_textual. rewrite !working_frame_has_column, !working_frame_column.
  intros Hd Hdt Hboth d t. destruct (1000 <? len df); [|now apply Hd].
  destruct (column "Date" df) as [d0|]; [|discriminate].
  destruct (column "Time" df) as [t0|]; [|discriminate].
  simpl. intros [= <-] [= <-].
  destruct (Hd Hdt Hboth d0 t0 eq_refl eq_refl) as (Ho & Hvd & Hvt).
  simpl. auto using slice_step_forallb.
Qed.

(** A frame that is not empty and whose date columns are text gets its x axis
    without an exception. *)
Lemma x_axis_frame_total (df : DataFrame) :
  empty df = false -> dates_textual df ->
  exists x df1, x_col_of df = Return x /\ x_axis_frame x df = Return df1.
Proof.
  intros He Hd. destruct (x_col_of_total df He) as [x Hx].
  exists x. destruct (x_col_of_cases df x Hx)
    as [[Hdt ->] | [(Hdt & Hboth & ->) | (_ & _ & _ & Hne)]].
  - destruct (proj1 (has_column_assoc _ _) Hdt) as [s Hs].
    unfold x_axis_frame. simpl. rewrite (date_time_values_literal df s Hdt Hs).
    simpl. eauto.
  - pose proof Hboth as Hb. apply andb_true_iff in Hb as [HD HT].
    destruct (proj1 (has_column_assoc _ _) HD) as [d Hcd].
    destruct (proj1 (has_column_assoc _ _) HT) as [t Hct].
    destruct (Hd Hdt Hboth d t Hcd Hct) as (Ho & Hvd & Hvt).
    unfold x_axis_frame. simpl.
    rewrite (date_time_values_joined df d t Hdt Hcd Hct Ho Hvd Hvt). simpl. eauto.
  - rewrite (x_axis_frame_not_time _ _ Hne). eauto.
Qed.

(** [prepare_data] returns a table for every stored frame that is not empty
    and whose date columns are text. *)
Lemma prepare_data_returns (sel : list string) (st : State) (l0 : loc)
    (df0 : DataFrame) :
  uploaded_data_store st !! "data" = Some l0 ->
  heap st !! l0 = Some df0 ->
  empty df0 = false ->
  dates_textual df0 ->
  exists x df1,
    x_col_of (working_frame df0) = Return x
    /\ x_axis_frame x (working_frame df0) = Return df1
    /\ prepare_data sel st
       = (Return (Some (working_loc st l0 df0, x)),
          {| heap := <[working_loc st l0 df0 := coerce_all sel df1]>
                       (heap (working_state st l0 df0));
             uploaded_data_store := uploaded_data_store st |}).
Proof.
  intros Hs Hl He Hd.
  destruct (x_axis_frame_total (working_frame df0)
              (working_frame_nonempty _ He) (dates_textual_working _ Hd))
    as (x & df1 & Hx & Hf).
  exists x, df1. rewrite (prepare_data_run sel st l0 df0 Hs Hl He), Hx, Hf.
  auto.
Qed.

End AxisFacts.

(** ** No dataset, and the row bound *)

Section RowFacts.
Context `{Library}.

Lemma run_all_none (sels : list (list string)) (st : State) :
  uploaded_data_store st !! "data" = None ->
  run_all (map prepare_data sels) st = (map (fun _ => Return None) sels, st).
Proof.
  intros Hs. induction sels as [|sel sels IH]; simpl; [reflexivity|].
  now rewrite (prepare_data_no_data sel st Hs), IH.
Qed.

(** C8. [prepare_data] returns [None] when the store holds no dataset or the
    dataset has no rows; a reset leaves the store without a dataset, and every
    preparation after it returns [None]. *)
Theorem prepare_data_without_dataset (selected_cols : list string) (st : State) :
  (uploaded_data_store st !! "data" = None ->
   prepare_data selected_cols st = (Return None, st))
  /\ (forall l0 df0,
        uploaded_data_store st !! "data" = Some l0 ->
        heap st !! l0 = Some df0 ->
        len df0 = 0 ->
        prepare_data selected_cols st = (Return None, st))
  /\ (forall contents reset_clicks filename,
        exists st',
          handle_file_upload (Some "reset-button") contents reset_clicks filename st
          = (Return cleared_message, st')
          /\ uploaded_data_store st' = ∅
          /\ stored_frame st' = None
          /\ forall sels,
               run_all (map prepare_data sels) st'
               = (map (fun _ => Return None) sels, st')).
Proof.
  split; [apply prepare_data_no_data|]. split.
  - intros l0 df0 Hs Hl Hlen. apply (prepare_data_empty _ _ l0 df0 Hs Hl).
    unfold empty. now rewrite Hlen.
  - intros contents reset_clicks filename.
    exists {| heap := heap st; uploaded_data_store := ∅ |}.
    split; [reflexivity|]. split; [reflexivity|]. split; [reflexivity|].
    intros sels. apply run_all_none. reflexivity.
Qed.

(** Between 1000 and 1999 rows are kept, and exactly 1000 only when the row
    count is a multiple of 1000. *)
Lemma working_frame_rows (df : DataFrame) :
  1000 < len df ->
  1000 <= len (working_frame df) < 2000
  /\ (len (working_frame df) = 1000 <-> len df mod 1000 = 0).
Proof.
  intros Hn. pose proof (stride_pos df Hn) as Hk.
  rewrite working_frame_len. destruct (Nat.ltb_spec 1000 (len df)); [|lia].
  unfold stride in *. set (n := len df) in *. set (k := n / 1000) in *.
  pose proof (Nat.div_mod_eq n 1000) as Hdm. fold k in Hdm.
  pose proof (Nat.mod_upper_bound n 1000 ltac:(lia)) as Hr.
  pose proof (Nat.div_mod_eq (n + k - 1) k) as Hq.
  pose proof (Nat.mod_upper_bound (n + k - 1) k ltac:(lia)) as Hqr.
  set (q := (n + k - 1) / k) in *. nia.
Qed.

(** C1. On a frame of 1500 rows the stride is 1500 // 1000 = 1, so
    [prepare_data] returns all 1500 rows, more than [MAX_POINTS]. *)
Theorem prepare_data_1500_rows :
  exists l x st' df,
    prepare_data ["Chiller1_Power"] (state_with frame_1500)
    = (Return (Some (l, x)), st')
    /\ heap st' !! l = Some df
    /\ len df = 1500
    /\ MAX_POINTS < len df.
Proof.
  assert (Hd : dates_textual frame_1500) by (intros _ Hb; discriminate Hb).
  destruct (prepare_data_returns ["Chiller1_Power"] (state_with frame_1500)
              1%positive frame_1500 eq_refl eq_refl eq_refl Hd)
    as (x & df1 & Hx & Hf & Hrun).
  eexists _, x, _, _. split; [exact Hrun|].
  split; [cbn [heap]; apply lookup_insert_eq|].
  assert (Hlen : len (coerce_all ["Chiller1_Power"] df1) = 1500).
  { rewrite coerce_all_len.
    replace (len df1) with (len (working_frame frame_1500))
      by (unfold len; now rewrite (x_axis_frame_index _ _ _ Hf)).
    rewrite working_frame_len. vm_compute. reflexivity. }
  rewrite Hlen. unfold MAX_POINTS. split; [reflexivity | lia].
Qed.

End RowFacts.

Lemma prepare_data_without_dataset_witness :
  prepare_data ["Chiller1_Power"] initial_state = (Return None, initial_state)
  /\ prepare_data ["Chiller1_Power"] (state_with (power_frame 0))
     = (Return None, state_with (power_frame 0)).
Proof.
  split.
  - apply (proj1 (prepare_data_without_dataset ["Chiller1_Power"] initial_state)).
    reflexivity.
  - apply (proj1 (proj2 (prepare_data_without_dataset ["Chiller1_Power"]
                           (state_with (power_frame 0))))
             1%positive (power_frame 0)); reflexivity.
Defined.

(** ** Downsampling *)

Section DownsampleFacts.
Context `{Library}.

Lemma working_frame_index_large (df : DataFrame) :
  1000 < len df -> index (working_frame df) = slice_step (stride df) (index df).
Proof.
  intros Hn. unfold working_frame.
  destruct (Nat.ltb_spec 1000 (len df)); [reflexivity | lia].
Qed.

Lemma working_frame_column_large (c : string) (df : DataFrame) :
  1000 < len df ->
  column c (working_frame df) = series_step (stride df) <$> column c df.
Proof.
  intros Hn. rewrite working_frame_column.
  destruct (Nat.ltb_spec 1000 (len df)); [reflexivity | lia].
Qed.

(** What a returned table is, in terms of the frame worked on. *)
Lemma prepare_data_result (sel : list string) (st st' : State) (l0 l' : loc)
    (df0 : DataFrame) (x : string) :
  uploaded_data_store st !! "data" = Some l0 ->
  heap st !! l0 = Some df0 ->
  prepare_data sel st = (Return (Some (l', x)), st') ->
  l' = working_loc st l0 df0
  /\ x_col_of (working_frame df0) = Return x
  /\ uploaded_data_store st' = uploaded_data_store st
  /\ exists df1,
       x_axis_frame x (working_frame df0) = Return df1
       /\ heap st' = <[l' := coerce_all sel df1]> (heap (working_state st l0 df0)).
Proof.
  intros Hs Hl Hrun. destruct (empty df0) eqn:He.
  - rewrite (prepare_data_empty sel st l0 df0 Hs Hl He) in Hrun. discriminate.
  - rewrite (prepare_data_run sel st l0 df0 Hs Hl He) in Hrun.
    destruct (x_col_of (working_frame df0)) as [x0|e]; [|discriminate].
    destruct (x_axis_frame x0 (working_frame df0)) as [df1|e] eqn:Hf;
      [|discriminate].
    injection Hrun as <- <- <-. repeat split; eauto.
Qed.

(** C6. With more than 1000 rows, [prepare_data] works on the rows at
    positions 0, N, 2N, ... of the stored frame, N = len // 1000, and on no
    others: the first row is kept, the kept rows stay in their order, and a
    table that is returned is made of these rows. *)
Theorem downsample_fixed_stride (selected_cols : list string) (st : State)
    (l0 : loc) (df0 : DataFrame) :
  uploaded_data_store st !! "data" = Some l0 ->
  heap st !! l0 = Some df0 ->
  MAX_POINTS < len df0 ->
  let N := len df0 / MAX_POINTS in
  exists l st1 sliced,
    downsample l0 df0 st = (Return l, st1)
    /\ heap st1 !! l = Some sliced
    /\ columns sliced = columns df0
    /\ (forall i, index sliced !! i = index df0 !! (i * N))
    /\ (forall c s0, column c df0 = Some s0 ->
          exists s, column c sliced = Some s
                    /\ forall i, values s !! i = values s0 !! (i * N))
    /\ (forall i, i < len sliced <-> i * N < len df0)
    /\ index sliced !! 0 = index df0 !! 0
    /\ index sliced `sublist_of` index df0
    /\ (forall l' x st',
          prepare_data selected_cols st = (Return (Some (l', x)), st') ->
          l' = l
          /\ exists df,
               heap st' !! l = Some df
               /\ index df = index sliced
               /\ forall c,
                    existsb (String.eqb c) selected_cols = false ->
                    String.eqb c "Date/Time" = false ->
                    column c df = column c sliced)
    /\ (empty df0 = false -> dates_textual df0 ->
        exists x st',
          prepare_data selected_cols st = (Return (Some (l, x)), st')).
Proof.
  unfold MAX_POINTS. intros Hs Hl Hn. cbv zeta. fold (stride df0).
  pose proof (stride_pos df0 Hn) as Hk.
  exists (working_loc st l0 df0), (working_state st l0 df0), (working_frame df0).
  split; [apply downsample_run|].
  split; [apply working_state_lookup, Hl|].
  split; [apply working_frame_columns|].
  split.
  { intros i. rewrite (working_frame_index_large df0 Hn).
    apply slice_step_lookup, Hk. }
  split.
  { intros c s0 Hc. exists (series_step (stride df0) s0).
    rewrite (working_frame_column_large c df0 Hn), Hc. split; [reflexivity|].
    intros i. apply slice_step_lookup, Hk. }
  split.
  { intros i. unfold len. rewrite (working_frame_index_large df0 Hn).
    apply slice_step_lt, Hk. }
  split.
  { rewrite (working_frame_index_large df0 Hn), slice_step_lookup by exact Hk.
    reflexivity. }
  split.
  { rewrite (working_frame_index_large df0 Hn). apply slice_step_sublist. }
  split.
  - intros l' x st' Hrun.
    destruct (prepare_data_result _ _ _ _ _ _ _ Hs Hl Hrun)
      as (-> & Hx & _ & df1 & Hf & Hheap).
    split; [reflexivity|]. exists (coerce_all selected_cols df1).
    split; [rewrite Hheap; apply lookup_insert_eq|].
    split; [rewrite coerce_all_index; apply (x_axis_frame_index _ _ _ Hf)|].
    intros c Hsel Hc. rewrite coerce_all_column, Hsel.
    apply (x_axis_frame_other _ _ _ _ Hf Hc).
  - intros He Hd.
    destruct (prepare_data_returns selected_cols st l0 df0 Hs Hl He Hd)
      as (x & df1 & _ & _ & Hrun).
    eauto.
Qed.

End DownsampleFacts.

Lemma downsample_fixed_stride_witness :
  exists l st1 sliced,
    downsample 1%positive (power_frame 2500) (state_with (power_frame 2500))
    = (Return l, st1)
    /\ heap st1 !! l = Some sliced
    /\ index sliced !! 3 = Some 6.
Proof.
  destruct (downsample_fixed_stride ["Chiller1_Power"]
              (state_with (power_frame 2500)) 1%positive (power_frame 2500))
    as (l & st1 & sliced & Hrun & Hheap & _ & Hidx & _);
    [reflexivity | reflexivity | vm_compute; lia |].
  exists l, st1, sliced. split; [exact Hrun|]. split; [exact Hheap|].
  rewrite Hidx. vm_compute. reflexivity.
Defined.

(** ** Aliasing between the stored frame and the returned table *)

Section AliasingFacts.
Context `{Library}.

Lemma numeric_column_ext (c : string) (d1 d2 : DataFrame) :
  column c d1 = column c d2 -> len d1 = len d2 ->
  numeric_column c d1 = numeric_column c d2.
Proof. unfold numeric_column, column. now intros -> ->. Qed.

Lemma x_axis_frame_len (x : string) (df df1 : DataFrame) :
  x_axis_frame x df = Return df1 -> len df1 = len df.
Proof. intros Hf. unfold len. now rewrite (x_axis_frame_index _ _ _ Hf). Qed.

Lemma x_axis_frame_time (df df1 : DataFrame) :
  x_axis_frame "Date/Time" df = Return df1 ->
  exists v, date_time_values df = Return v
            /\ df1 = setitem "Date/Time" (to_datetime (date_time_format df) v) df.
Proof.
  unfold x_axis_frame. simpl.
  destruct (date_time_values df) as [v|e]; simpl; [|discriminate].
  intros [= <-]. eauto.
Qed.

Lemma working_small (st : State) (l0 : loc) (df0 : DataFrame) :
  len df0 <= 1000 ->
  working_loc st l0 df0 = l0 /\ working_state st l0 df0 = st
  /\ working_frame df0 = df0.
Proof.
  intros Hn. unfold working_loc, working_state, working_frame.
  destruct (Nat.ltb_spec 1000 (len df0)); [lia | auto].
Qed.

(** C3. For a stored frame that is not empty, has at most 1000 rows and whose
    date columns are text, the table [prepare_data] returns is the stored
    object itself: after the call the store holds the frame with its
    "Date/Time" x-axis column replaced by parsed timestamps and every selected
    column replaced by its numeric coercion. With more than 1000 rows the
    table is a new object and the stored frame is as it was. An empty frame is
    left as it is and nothing is returned. *)
Theorem prepare_data_aliasing (selected_cols : list string) (st : State)
    (l0 : loc) (df0 : DataFrame) :
  uploaded_data_store st !! "data" = Some l0 ->
  heap st !! l0 = Some df0 ->
  (empty df0 = true -> prepare_data selected_cols st = (Return None, st))
  /\ (empty df0 = false ->
      dates_textual df0 ->
      exists l x st',
        prepare_data selected_cols st = (Return (Some (l, x)), st')
        /\ uploaded_data_store st' = uploaded_data_store st
        /\ (len df0 <= MAX_POINTS ->
            l = l0
            /\ exists df',
                 stored_frame st' = Some df'
                 /\ heap st' !! l = Some df'
                 /\ (forall c, existsb (String.eqb c) selected_cols = true ->
                       exists s, column c df' = Some s
                                 /\ Forall is_numeric (values s)
                                 /\ (String.eqb c "Date/Time" = false ->
                                     s = numeric_column c df0))
                 /\ (x = "Date/Time" ->
                     existsb (String.eqb "Date/Time") selected_cols = false ->
                     exists v, date_time_values df0 = Return v
                               /\ column "Date/Time" df'
                                  = Some (to_datetime (date_time_format df0) v)
                               /\ Forall is_datetime
                                    (values (to_datetime (date_time_format df0) v))))
        /\ (MAX_POINTS < len df0 ->
            l <> l0 /\ heap st !! l = None
            /\ stored_frame st' = Some df0)).
Proof.
  unfold MAX_POINTS. intros Hs Hl.
  split; [apply (prepare_data_empty _ _ _ _ Hs Hl)|]. intros He Hd.
  destruct (prepare_data_returns selected_cols st l0 df0 Hs Hl He Hd)
    as (x & df1 & Hx & Hf & Hrun).
  exists (working_loc st l0 df0), x. eexists. split; [exact Hrun|].
  split; [reflexivity|]. split.
  - intros Hn. destruct (working_small st l0 df0 Hn) as (El & Est & Ewf).
    rewrite El, Est, Ewf in *. split; [reflexivity|].
    exists (coerce_all selected_cols df1). cbn [heap uploaded_data_store].
    split; [unfold stored_frame; cbn [heap uploaded_data_store];
            rewrite Hs; simpl; apply lookup_insert_eq|].
    split; [apply lookup_insert_eq|]. split.
    + intros c Hc. exists (numeric_column c df1).
      rewrite coerce_all_column, Hc. split; [reflexivity|].
      split; [apply numeric_column_numeric|].
      intros Hne. apply numeric_column_ext.
      * apply (x_axis_frame_other _ _ _ _ Hf Hne).
      * apply (x_axis_frame_len _ _ _ Hf).
    + intros -> Hsel. destruct (x_axis_frame_time _ _ Hf) as (v & Hv & ->).
      exists v. split; [exact Hv|].
      rewrite coerce_all_column, Hsel, column_setitem. simpl.
      split; [reflexivity | apply to_datetime_coerce].
  - intros Hn. pose proof (working_loc_fresh st l0 df0 Hn) as Hfresh.
    assert (Hne : working_loc st l0 df0 <> l0) by congruence.
    split; [exact Hne|]. split; [exact Hfresh|].
    unfold stored_frame. cbn [heap uploaded_data_store]. rewrite Hs. simpl.
    rewrite lookup_insert_ne by exact Hne.
    apply (working_state_stored st l0 df0 Hl Hn).
Qed.

End AliasingFacts.

Lemma prepare_data_aliasing_witness :
  exists l x st',
    prepare_data ["Chiller1_Power"] (state_with (power_frame 3))
    = (Return (Some (l, x)), st')
    /\ l = 1%positive.
Proof.
  destruct (proj2 (prepare_data_aliasing ["Chiller1_Power"]
                     (state_with (power_frame 3)) 1%positive (power_frame 3)
                     eq_refl eq_refl))
    as (l & x & st' & Hrun & _ & Hsmall & _);
    [reflexivity | intros _ Hb; discriminate Hb |].
  exists l, x, st'. split; [exact Hrun|].
  apply Hsmall. vm_compute. lia.
Defined.

(** The guard of line 120 on a header-only frame with "Date" and "Time":
    nothing is returned, and the stored frame gets neither a "Date/Time"
    column nor the selected column. *)
Lemma prepare_data_aliasing_counterexample :
  len dates_header_frame <= MAX_POINTS
  /\ prepare_data ["Chiller1_Power"] (state_with dates_header_frame)
     = (Return None, state_with dates_header_frame)
  /\ stored_frame (state_with dates_header_frame) = Some dates_header_frame
  /\ column "Date/Time" dates_header_frame = None
  /\ column "Chiller1_Power" dates_header_frame = None.
Proof.
  split; [vm_compute; lia|]. split; [|repeat split].
  apply (prepare_data_empty _ _ 1%positive dates_header_frame); reflexivity.
Qed.

(** ** Choice of the x axis *)

Section ChoiceFacts.
Context `{Library}.

Lemma mapM_lookup {A B} (f : A -> result B) (l : list A) (l' : list B)
    (i : nat) (a : A) :
  result_mapM f l = Return l' -> l !! i = Some a ->
  exists b, f a = Return b /\ l' !! i = Some b.
Proof.
  revert l' i. induction l as [|x l IH]; intros l' i Hm Hi; [discriminate|].
  simpl in Hm. destruct (f x) as [y|e] eqn:Hy; simpl in Hm; [|discriminate].
  destruct (result_mapM f l) as [ys|e]; simpl in Hm; [|discriminate].
  injection Hm as <-. destruct i as [|i]; simpl in *.
  - injection Hi as <-. eauto.
  - apply (IH ys i eq_refl Hi).
Qed.

(** Whenever the synthesis of line 135 succeeds, a row with text in "Date"
    and in "Time" gets the two texts joined by one space. *)
Lemma date_time_values_cells (df : DataFrame) (d t v : Series) (i : nat)
    (a b : string) :
  has_column "Date/Time" df = false ->
  column "Date" df = Some d -> column "Time" df = Some t ->
  date_time_values df = Return v ->
  values d !! i = Some (Text a) -> values t !! i = Some (Text b) ->
  values v !! i = Some (Text ((a +:+ " ") +:+ b)).
Proof.
  intros Hdt Hd Ht Hv Ha Hb. unfold date_time_values, getitem in Hv.
  unfold column in Hd, Ht. rewrite Hdt, Hd, Ht in Hv. simpl in Hv.
  unfold series_add_str in Hv. destruct (object_dtype d); [|discriminate].
  destruct (result_mapM (add_str_cell " ") (values d)) as [left|e] eqn:Hleft;
    simpl in Hv; [|discriminate].
  unfold series_add in Hv. simpl in Hv.
  destruct (result_mapM add_cell (combine left (values t))) as [vs|e] eqn:Hvs;
    simpl in Hv; [|discriminate].
  injection Hv as <-. simpl.
  destruct (mapM_lookup _ _ _ _ _ Hleft Ha) as (a' & Ha' & Hla).
  simpl in Ha'. injection Ha' as <-.
  assert (Hc : combine left (values t) !! i = Some (Text (a +:+ " "), Text b)).
  { clear -Hla Hb. revert i Hla Hb. generalize (values t) as r.
    induction left as [|p left IH]; intros r i Hla Hb; [discriminate|].
    destruct r as [|q r]; [discriminate|]. destruct i as [|i]; simpl in *.
    - congruence.
    - apply IH; assumption. }
  destruct (mapM_lookup _ _ _ _ _ Hvs Hc) as (c & Hc' & Hvi).
  simpl in Hc'. injection Hc' as <-. exact Hvi.
Qed.

End ChoiceFacts.

Section AxisChoice.
Context `{Library}.

Lemma dated_frame_values :
  date_time_values dated_frame
  = Return {| dtype_of := Object; values := [Text "01/02/2024 03:04:05"] |}.
Proof. reflexivity. Qed.

(** C5. The x axis of a returned table is "Date/Time" when the frame has a
    column of that name, which is parsed with the fixed pattern; else
    "Date/Time" when it has both "Date" and "Time", whose texts are joined by
    one space and parsed with inference; else the first column, which the
    x-axis step leaves as it is (so it is unchanged in the table unless it is
    also selected). A table is returned for every frame that is not empty and
    whose date columns are text, and none for an empty frame. With Date
    "01/02/2024" and Time "03:04:05" the x value is the timestamp
    2024-01-02 03:04:05. *)
Theorem x_axis_choice (selected_cols : list string) (st : State) (l0 : loc)
    (df0 : DataFrame) :
  uploaded_data_store st !! "data" = Some l0 ->
  heap st !! l0 = Some df0 ->
  (forall l x st',
     prepare_data selected_cols st = (Return (Some (l, x)), st') ->
     exists df',
       heap st' !! l = Some df'
       /\ (has_column "Date/Time" df0 = true ->
           x = "Date/Time"
           /\ exists s,
                column "Date/Time" (working_frame df0) = Some s
                /\ (existsb (String.eqb "Date/Time") selected_cols = false ->
                    column "Date/Time" df'
                    = Some (to_datetime (Some DATETIME_FORMAT) s)))
       /\ (has_column "Date/Time" df0 = false ->
           has_column "Date" df0 && has_column "Time" df0 = true ->
           x = "Date/Time"
           /\ exists d t v,
                column "Date" (working_frame df0) = Some d
                /\ column "Time" (working_frame df0) = Some t
                /\ (forall i a b,
                      values d !! i = Some (Text a) ->
                      values t !! i = Some (Text b) ->
                      values v !! i = Some (Text ((a +:+ " ") +:+ b)))
                /\ (existsb (String.eqb "Date/Time") selected_cols = false ->
                    column "Date/Time" df' = Some (to_datetime None v)))
       /\ (has_column "Date/Time" df0 = false ->
           has_column "Date" df0 && has_column "Time" df0 = false ->
           (exists rest, columns df0 = x :: rest)
           /\ x_axis_frame x (working_frame df0) = Return (working_frame df0)
           /\ (existsb (String.eqb x) selected_cols = false ->
               column x df' = column x (working_frame df0))))
  /\ (empty df0 = false -> dates_textual df0 ->
      exists l x st',
        prepare_data selected_cols st = (Return (Some (l, x)), st'))
  /\ (empty df0 = true -> prepare_data selected_cols st = (Return None, st))
  /\ (exists st' df' s,
        prepare_data ["Power1"] (state_with dated_frame)
        = (Return (Some (1%positive, "Date/Time")), st')
        /\ heap st' !! 1%positive = Some df'
        /\ column "Date/Time" df' = Some s
        /\ values s = [Timestamp (Datetime 2024 1 2 3 4 5)]).
Proof.
  intros Hs Hl. split; [|split; [|split]].
  - intros l x st' Hrun.
    destruct (prepare_data_result _ _ _ _ _ _ _ Hs Hl Hrun)
      as (-> & Hx & _ & df1 & Hf & Hheap).
    exists (coerce_all selected_cols df1).
    split; [rewrite Hheap; apply lookup_insert_eq|].
    destruct (x_col_of_cases _ _ Hx)
      as [[Hdt ->] | [(Hdt & Hboth & ->) | (Hdt & Hboth & Hfirst & Hne)]].
    + pose proof Hdt as Hdt0. rewrite working_frame_has_column in Hdt0.
      split; [|split]; [|congruence|congruence].
      intros _. split; [reflexivity|].
      destruct (x_axis_frame_time _ _ Hf) as (v & Hv & ->).
      destruct (proj1 (has_column_assoc _ _) Hdt) as [s Hcs].
      rewrite (date_time_values_literal _ s Hdt Hcs) in Hv. injection Hv as <-.
      exists s. split; [exact Hcs|]. intros Hsel.
      rewrite coerce_all_column, Hsel, column_setitem. simpl.
      unfold date_time_format. now rewrite Hdt.
    + pose proof Hdt as Hdt0. pose proof Hboth as Hboth0.
      rewrite working_frame_has_column in Hdt0.
      rewrite 2!working_frame_has_column in Hboth0.
      split; [congruence|]. split; [|congruence].
      intros _ _. split; [reflexivity|].
      destruct (x_axis_frame_time _ _ Hf) as (v & Hv & ->).
      apply andb_true_iff in Hboth as [HD HT].
      destruct (proj1 (has_column_assoc _ _) HD) as [d Hcd].
      destruct (proj1 (has_column_assoc _ _) HT) as [t Hct].
      exists d, t, v. split; [exact Hcd|]. split; [exact Hct|]. split.
      * intros i a b. apply (date_time_values_cells _ d t v i a b Hdt Hcd Hct Hv).
      * intros Hsel. rewrite coerce_all_column, Hsel, column_setitem. simpl.
        unfold date_time_format. now rewrite Hdt.
    + pose proof Hdt as Hdt0. pose proof Hboth as Hboth0.
      rewrite working_frame_has_column in Hdt0.
      rewrite 2!working_frame_has_column in Hboth0.
      split; [congruence|]. split; [congruence|].
      intros _ _. rewrite working_frame_columns in Hfirst.
      split; [exact Hfirst|].
      rewrite (x_axis_frame_not_time _ _ Hne) in Hf. injection Hf as <-.
      split; [apply (x_axis_frame_not_time _ _ Hne)|].
      intros Hsel. now rewrite coerce_all_column, Hsel.
  - intros He Hd.
    destruct (prepare_data_returns selected_cols st l0 df0 Hs Hl He Hd)
      as (x & df1 & _ & _ & Hrun).
    eauto.
  - apply (prepare_data_empty _ _ _ _ Hs Hl).
  - pose (v := {| dtype_of := Object; values := [Text "01/02/2024 03:04:05"] |}).
    assert (Hp : values (to_datetime None v)
                 = [Timestamp (Datetime 2024 1 2 3 4 5)]).
    { apply (to_datetime_pattern None v [Datetime 2024 1 2 3 4 5]);
        [now left|].
      repeat constructor. exists "01/02/2024 03:04:05". split; reflexivity. }
    rewrite (prepare_data_run ["Power1"] (state_with dated_frame) 1%positive
               dated_frame eq_refl eq_refl eq_refl).
    change (x_col_of (working_frame dated_frame)) with (@Return string "Date/Time").
    cbv iota.
    change (x_axis_frame "Date/Time" (working_frame dated_frame))
      with (Return (setitem "Date/Time" (to_datetime None v) dated_frame)).
    cbv iota. eexists _, _, (to_datetime None v).
    split; [reflexivity|]. split; [apply lookup_insert_eq|].
    split; [|exact Hp].
    rewrite coerce_all_column. reflexivity.
Qed.

End AxisChoice.

Lemma x_axis_choice_witness :
  exists l x st',
    prepare_data ["Power1"] (state_with dated_frame)
    = (Return (Some (l, x)), st').
Proof.
  apply (proj1 (proj2 (x_axis_choice ["Power1"] (state_with dated_frame)
                         1%positive dated_frame eq_refl eq_refl))).
  - reflexivity.
  - intros _ _ d t [= <-] [= <-]. repeat split.
Defined.

(** ** Exceptions in [prepare_data] *)

Section RaiseFacts.
Context `{Library}.

(** A text cell that does not read as a number becomes the missing number. *)
Lemma to_numeric_unparseable (s : string) :
  parse_number s = None -> to_numeric_scalar (Text s) = NaN.
Proof. simpl. now intros ->. Qed.

(** The conversions keep one cell per row. *)
Lemma prepare_data_keeps_rows (sel : list string) (st st' : State) (l0 l : loc)
    (df0 : DataFrame) (x : string) :
  uploaded_data_store st !! "data" = Some l0 ->
  heap st !! l0 = Some df0 ->
  prepare_data sel st = (Return (Some (l, x)), st') ->
  exists df', heap st' !! l = Some df' /\ index df' = index (working_frame df0).
Proof.
  intros Hs Hl Hrun.
  destruct (prepare_data_result _ _ _ _ _ _ _ Hs Hl Hrun)
    as (-> & _ & _ & df1 & Hf & Hheap).
  exists (coerce_all sel df1). split; [rewrite Hheap; apply lookup_insert_eq|].
  rewrite coerce_all_index. apply (x_axis_frame_index _ _ _ Hf).
Qed.

(** C7. With a "Date" column that was read as numbers and no "Date/Time"
    column, [df['Date'] + ' '] raises: [prepare_data] ends with a [TypeError]
    instead of a table. *)
Theorem prepare_data_raises_on_numeric_date (selected_cols : list string) :
  prepare_data selected_cols (state_with numeric_dates_frame)
  = (Raise concat_error, state_with numeric_dates_frame)
  /\ exn_cls concat_error = TypeError.
Proof.
  split; [|reflexivity].
  rewrite (prepare_data_run selected_cols (state_with numeric_dates_frame)
             1%positive numeric_dates_frame eq_refl eq_refl eq_refl).
  reflexivity.
Qed.

End RaiseFacts.

(** ** The upload handler *)

Section UploadFacts.
Context `{Library}.

Lemma try_except_run {A} (body : M A) (handler : exception -> M A) (st : State) :
  try_except body handler st
  = match body st with
    | (Return a, st') => (Return a, st')
    | (Raise e, st') => handler e st'
    end.
Proof. reflexivity. Qed.

(** The start of [process_file_upload], up to the [try]. *)
Lemma process_file_upload_decoded (contents content_string : string)
    (decoded : bytes) (filename : option string) (st : State) :
  truthy (Some contents) = true ->
  unpack_two (PyStr.split "," contents) = Return content_string ->
  b64decode content_string = Return decoded ->
  process_file_upload (Some contents) filename st
  = try_except (upload_body decoded filename)
               (fun e => mret (error_message e)) st.
Proof.
  intros Ht Hu Hb. unfold process_file_upload. rewrite Ht.
  rewrite bind_run. unfold lift at 1. simpl default. rewrite Hu.
  rewrite bind_run. unfold lift at 1. rewrite Hb. reflexivity.
Qed.

(** Failures inside the [try] are reported with their text, and the store is
    as before. *)
Lemma upload_parse_failure_caught (contents content_string name : string)
    (decoded : bytes) (e : exception) (st : State) :
  truthy (Some contents) = true ->
  unpack_two (PyStr.split "," contents) = Return content_string ->
  b64decode content_string = Return decoded ->
  PyStr.endswith name ".csv" = true ->
  (utf8_decode decoded = Raise e
   \/ exists text, utf8_decode decoded = Return text /\ read_csv text = Raise e) ->
  process_file_upload (Some contents) (Some name) st
  = (Return (error_message e), st).
Proof.
  intros Ht Hu Hb Hn Hfail.
  rewrite (process_file_upload_decoded _ _ _ _ _ Ht Hu Hb), try_except_run.
  unfold upload_body. rewrite Hn. change (negb true) with false. cbv iota.
  rewrite bind_run. unfold lift at 1.
  destruct Hfail as [Hd | (text & Hd & Hr)]; rewrite Hd; [reflexivity|].
  rewrite bind_run. unfold lift at 1. rewrite Hr. reflexivity.
Qed.

(** Failures of lines 255-256 are not inside the [try]. *)
Lemma process_file_upload_before_try (contents : string)
    (filename : option string) (st : State) (e : exception) :
  truthy (Some contents) = true ->
  (unpack_two (PyStr.split "," contents) = Raise e
   \/ exists content_string,
        unpack_two (PyStr.split "," contents) = Return content_string
        /\ b64decode content_string = Raise e) ->
  process_file_upload (Some contents) filename st = (Raise e, st).
Proof.
  intros Ht Hfail. unfold process_file_upload. rewrite Ht.
  rewrite bind_run. unfold lift at 1. simpl default.
  destruct Hfail as [Hu | (content_string & Hu & Hb)]; rewrite Hu;
    [reflexivity|].
  rewrite bind_run. unfold lift at 1. rewrite Hb. reflexivity.
Qed.

Lemma handle_file_upload_not_reset (contents filename : option string)
    (reset_clicks : option nat) (st : State) :
  handle_file_upload (Some "upload-data") contents reset_clicks filename st
  = process_file_upload contents filename st.
Proof.
  unfold handle_file_upload. now rewrite bool_decide_eq_false_2 by discriminate.
Qed.

(** C2. A payload that base64 cannot decode, or that does not split into two
    parts at the comma, fails before the [try] of line 257: the exception
    leaves [process_file_upload] and no message is returned. *)
Theorem upload_decode_failure_escapes (contents : string)
    (filename : option string) (st : State) (e : exception) :
  truthy (Some contents) = true ->
  (unpack_two (PyStr.split "," contents) = Raise e
   \/ exists content_string,
        unpack_two (PyStr.split "," contents) = Return content_string
        /\ b64decode content_string = Raise e) ->
  process_file_upload (Some contents) filename st = (Raise e, st)
  /\ handle_file_upload (Some "upload-data") (Some contents) None filename st
     = (Raise e, st).
Proof.
  intros Ht Hfail. rewrite handle_file_upload_not_reset.
  split; apply process_file_upload_before_try; assumption.
Qed.

(** X8. An upload whose file name does not end in ".csv" never changes the
    state, and once its payload is split and decoded the handler answers with
    the rejection message; "data.txt" is such a name. *)
Theorem upload_rejects_other_extensions (contents name : string) (st : State) :
  PyStr.endswith name ".csv" = false ->
  (forall r st',
     process_file_upload (Some contents) (Some name) st = (r, st') -> st' = st)
  /\ (forall content_string decoded,
        truthy (Some contents) = true ->
        unpack_two (PyStr.split "," contents) = Return content_string ->
        b64decode content_string = Return decoded ->
        process_file_upload (Some contents) (Some name) st
        = (Return unsupported_message, st)
        /\ handle_file_upload (Some "upload-data") (Some contents) None
             (Some name) st
           = (Return unsupported_message, st))
  /\ PyStr.endswith "data.txt" ".csv" = false.
Proof.
  intros Hn.
  assert (Hbody : forall decoded,
             try_except (upload_body decoded (Some name))
                        (fun e => mret (error_message e)) st
             = (Return unsupported_message, st)).
  { intros decoded. rewrite try_except_run. unfold upload_body.
    rewrite Hn. reflexivity. }
  split; [|split; [|reflexivity]].
  - intros r st'. unfold process_file_upload.
    destruct (truthy (Some contents)).
    + rewrite bind_run. unfold lift at 1.
      destruct (unpack_two _) as [content_string|e]; [|now intros [= _ <-]].
      rewrite bind_run. unfold lift at 1.
      destruct (b64decode content_string) as [decoded|e]; [|now intros [= _ <-]].
      rewrite Hbody. now intros [= _ <-].
    + rewrite bind_run. unfold store_get.
      destruct (uploaded_data_store st !! "data") as [l|]; [|now intros [= _ <-]].
      rewrite bind_run. unfold deref.
      destruct (heap st !! l); now intros [= _ <-].
  - intros content_string decoded Ht Hu Hb.
    assert (Hrun : process_file_upload (Some contents) (Some name) st
                   = (Return unsupported_message, st)).
    { rewrite (process_file_upload_decoded _ _ _ _ _ Ht Hu Hb). apply Hbody. }
    split; [exact Hrun|]. unfold handle_file_upload.
    rewrite bool_decide_eq_false_2 by discriminate. exact Hrun.
Qed.

End UploadFacts.

Lemma upload_decode_failure_escapes_witness :
  process_file_upload (Some "data:text/csv;base64,abc") (Some "data.csv")
    initial_state
  = (Raise (Exception BinasciiError "Incorrect padding"), initial_state)
  /\ process_file_upload (Some "data:") (Some "data.csv") initial_state
     = (Raise (Exception ValueError
                 "not enough values to unpack (expected 2, got 1)"),
        initial_state).
Proof.
  split.
  - apply (upload_decode_failure_escapes "data:text/csv;base64,abc"
             (Some "data.csv") initial_state
             (Exception BinasciiError "Incorrect padding")).
    + reflexivity.
    + right. exists "abc". split; reflexivity.
  - apply (upload_decode_failure_escapes "data:" (Some "data.csv") initial_state
             (Exception ValueError
                "not enough values to unpack (expected 2, got 1)")).
    + reflexivity.
    + left. reflexivity.
Defined.

Lemma upload_rejects_text_file :
  process_file_upload (Some "data:text/plain;base64,aGVsbG8=") (Some "data.txt")
    initial_state
  = (Return unsupported_message, initial_state).
Proof.
  apply (proj1 (proj2 (upload_rejects_other_extensions
                         "data:text/plain;base64,aGVsbG8=" "data.txt"
                         initial_state eq_refl))
           "aGVsbG8=" "hello"); reflexivity.
Defined.

(** An empty frame with a "Date/Time" column gets no x axis at all, and a first
    column that is also selected is coerced like any selected column. *)
Lemma x_axis_choice_counterexample :
  has_column "Date/Time" datetime_header_frame = true
  /\ prepare_data [] (state_with datetime_header_frame)
     = (Return None, state_with datetime_header_frame)
  /\ exists st' df',
       prepare_data ["Chiller Power"] (state_with status_frame)
       = (Return (Some (1%positive, "Chiller Power")), st')
       /\ heap st' !! 1%positive = Some df'
       /\ column "Chiller Power" status_frame
          = Some {| dtype_of := Object; values := [Text "on"] |}
       /\ column "Chiller Power" df'
          = Some {| dtype_of := Numeric; values := [NaN] |}.
Proof.
  split; [reflexivity|]. split.
  - apply (prepare_data_empty _ _ 1%positive datetime_header_frame); reflexivity.
  - rewrite (prepare_data_run ["Chiller Power"] (state_with status_frame)
               1%positive status_frame eq_refl eq_refl eq_refl).
    eexists _, _. split; [reflexivity|].
    split; [apply lookup_insert_eq|]. split; reflexivity.
Qed.

Section UploadDefect.
Context `{Library}.

(** C9. For the file name "data.txt" and a payload without a comma, the
    unpacking of line 255 raises before the extension is looked at: the handler
    ends with a [ValueError] and returns no rejection message. The same happens
    when base64 cannot decode the payload. *)
Theorem upload_rejection_preempted (st : State) :
  PyStr.endswith "data.txt" ".csv" = false
  /\ process_file_upload (Some "data:") (Some "data.txt") st
     = (Raise (Exception ValueError
                 "not enough values to unpack (expected 2, got 1)"), st)
  /\ handle_file_upload (Some "upload-data") (Some "data:") None
       (Some "data.txt") st
     = (Raise (Exception ValueError
                 "not enough values to unpack (expected 2, got 1)"), st)
  /\ (forall e,
        b64decode "abc" = Raise e ->
        process_file_upload (Some "data:text/plain;base64,abc")
          (Some "data.txt") st
        = (Raise e, st)).
Proof.
  split; [reflexivity|]. split; [reflexivity|]. split; [reflexivity|].
  intros e Hb. apply process_file_upload_before_try; [reflexivity|].
  right. exists "abc". split; [reflexivity | exact Hb].
Qed.

End UploadDefect.

Lemma upload_rejection_preempted_witness :
  process_file_upload (Some "data:text/plain;base64,abc") (Some "data.txt")
    initial_state
  = (Raise (Exception BinasciiError "Incorrect padding"), initial_state).
Proof.
  apply (proj2 (proj2 (proj2 (upload_rejection_preempted initial_state)))).
  reflexivity.
Defined.

(** * Further properties of the dashboard code *)

(** ** The keyword tests of the classifier *)

Section KeywordFacts.
Import PyStr Classifier.

Lemma string_app_assoc (a b c : string) : (a +:+ b) +:+ c = a +:+ (b +:+ c).
Proof.
  induction a as [|x a IH]; [reflexivity|].
  change (String x ((a +:+ b) +:+ c) = String x (a +:+ (b +:+ c))).
  now rewrite IH.
Qed.

(** Containment is transitive. *)
Lemma contains_trans (a b s : string) :
  contains a b = true -> contains b s = true -> contains a s = true.
Proof.
  rewrite !contains_spec. intros (p1 & q1 & ->) (p2 & q2 & ->).
  exists (p2 +:+ p1), (q1 +:+ q2). now rewrite !string_app_assoc.
Qed.

Lemma is_supply_short (col : string) :
  is_supply col
  = (contains "supply" (lower col) || contains "chws" (lower col))
    && contains "t" (lower col).
Proof.
  unfold is_supply. f_equal.
  destruct (contains "temp" (lower col)) eqn:Htemp; [|reflexivity].
  now rewrite (contains_trans "t" "temp" _ eq_refl Htemp).
Qed.

Lemma is_return_short (col : string) :
  is_return col
  = contains "ret" (lower col)
    || (contains "chwr" (lower col) && contains "t" (lower col)).
Proof.
  unfold is_return.
  pose proof (contains_trans "ret" "return" (lower col) eq_refl) as Hreturn.
  pose proof (contains_trans "t" "ret" (lower col) eq_refl) as Hret.
  pose proof (contains_trans "t" "temp" (lower col) eq_refl) as Htemp.
  destruct (contains "return" (lower col)), (contains "ret" (lower col)),
    (contains "temp" (lower col)), (contains "t" (lower col)),
    (contains "chwr" (lower col)); simpl in *;
    try reflexivity; try (discriminate (Hreturn eq_refl));
    try (discriminate (Hret eq_refl)); discriminate (Htemp eq_refl).
Qed.

(** X1. The tests for "temp" and "return" never decide anything: a column is
    a supply column exactly when its name has "supply" or "chws" and a letter
    t, and a return column exactly when it has "ret", or "chwr" and a letter
    t. So every column whose name contains "ret" in any case is listed as a
    return-temperature column. *)
Theorem classifier_keyword_subsumption (cols : list string) (col : string) :
  (In col (supply_cols cols) <->
     In col cols
     /\ (ci_contains "supply" col \/ ci_contains "chws" col)
     /\ ci_contains "t" col)
  /\ (In col (return_cols cols) <->
        In col cols
        /\ (ci_contains "ret" col
            \/ (ci_contains "chwr" col /\ ci_contains "t" col)))
  /\ (In col cols -> ci_contains "ret" col -> In col (return_cols cols)).
Proof.
  assert (Hs : In col (supply_cols cols) <->
               In col cols
               /\ (ci_contains "supply" col \/ ci_contains "chws" col)
               /\ ci_contains "t" col).
  { unfold supply_cols. rewrite filter_In, is_supply_short.
    rewrite andb_true_iff, orb_true_iff.
    rewrite !contains_lower_ci by reflexivity. tauto. }
  assert (Hr : In col (return_cols cols) <->
               In col cols
               /\ (ci_contains "ret" col
                   \/ (ci_contains "chwr" col /\ ci_contains "t" col))).
  { unfold return_cols. rewrite filter_In, is_return_short.
    rewrite orb_true_iff, andb_true_iff.
    rewrite !contains_lower_ci by reflexivity. tauto. }
  split; [exact Hs|]. split; [exact Hr|]. intros Hin Hret. apply Hr. auto.
Qed.

End KeywordFacts.

Lemma classifier_keyword_subsumption_witness :
  In "Secret code" (Classifier.return_cols ["Secret code"; "Flow"]).
Proof.
  apply (proj2 (proj2 (classifier_keyword_subsumption
                         ["Secret code"; "Flow"] "Secret code"))).
  - left. reflexivity.
  - exists "Sec", "ret", " code". split; reflexivity.
Defined.

(** ** What [prepare_data] keeps *)

Section PrepareInvariants.
Context `{Library}.

Lemma mapM_length {A B} (f : A -> result B) (l : list A) (l' : list B) :
  result_mapM f l = Return l' -> length l' = length l.
Proof.
  revert l'. induction l as [|x l IH]; intros l' Hm.
  - now injection Hm as <-.
  - simpl in Hm. destruct (f x) as [y|e]; simpl in Hm; [|discriminate].
    destruct (result_mapM f l) as [ys|e]; simpl in Hm; [|discriminate].
    injection Hm as <-. simpl. now rewrite (IH ys eq_refl).
Qed.

Lemma wf_column (c : string) (s : Series) (df : DataFrame) :
  wf df -> column c df = Some s -> length (values s) = len df.
Proof.
  unfold wf, column. intros Hwf Hs. rewrite Forall_forall in Hwf.
  assert (Hin : (c, s) ∈ data df).
  { clear Hwf. induction (data df) as [|[c' s'] r IH]; simpl in Hs; [discriminate|].
    destruct (String.eqb c c') eqn:E.
    - apply String.eqb_eq in E. injection Hs as ->. subst. left.
    - right. auto. }
  exact (Hwf _ Hin).
Qed.

Lemma wf_setitem (c : string) (s : Series) (df : DataFrame) :
  wf df -> length (values s) = len df -> wf (setitem c s df).
Proof.
  unfold wf, setitem, len. simpl. intros Hwf Hs.
  induction Hwf as [|[c' s'] r Hc Hr IH]; simpl.
  - repeat constructor. exact Hs.
  - destruct (String.eqb c c'); constructor; auto.
Qed.

Lemma numeric_column_len (c : string) (df : DataFrame) :
  wf df -> length (values (numeric_column c df)) = len df.
Proof.
  intros Hwf. unfold numeric_column. fold (column c df).
  destruct (column c df) as [s|] eqn:Hs; simpl.
  - rewrite length_map. apply (wf_column c s df Hwf Hs).
  - apply repeat_length.
Qed.

Lemma wf_coerce_all (sel : list string) (df : DataFrame) :
  wf df -> wf (coerce_all sel df).
Proof.
  revert df. induction sel as [|c sel IH]; intros df Hwf; [exact Hwf|].
  rewrite coerce_all_cons. apply IH, wf_setitem; [exact Hwf|].
  apply numeric_column_len, Hwf.
Qed.

Lemma date_time_values_length (df : DataFrame) (v : Series) :
  wf df -> date_time_values df = Return v -> length (values v) = len df.
Proof.
  intros Hwf. unfold date_time_values, getitem.
  destruct (has_column "Date/Time" df).
  - fold (column "Date/Time" df).
    destruct (column "Date/Time" df) as [s|] eqn:Hs; [|discriminate].
    intros [= <-]. apply (wf_column _ _ _ Hwf Hs).
  - fold (column "Date" df) (column "Time" df).
    destruct (column "Date" df) as [d|] eqn:Hd; [|discriminate]. simpl.
    unfold series_add_str. destruct (object_dtype d); [|discriminate].
    destruct (result_mapM (add_str_cell " ") (values d)) as [left|e] eqn:Hleft;
      [|discriminate]. simpl.
    destruct (column "Time" df) as [t|] eqn:Ht; [|discriminate]. simpl.
    unfold series_add. simpl.
    destruct (result_mapM add_cell (combine left (values t))) as [vs|e] eqn:Hvs;
      [|discriminate]. simpl. intros [= <-]. simpl.
    rewrite (mapM_length _ _ _ Hvs), length_combine, (mapM_length _ _ _ Hleft).
    rewrite (wf_column _ _ _ Hwf Hd), (wf_column _ _ _ Hwf Ht). lia.
Qed.

Lemma wf_x_axis_frame (x : string) (df df1 : DataFrame) :
  wf df -> x_axis_frame x df = Return df1 -> wf df1.
Proof.
  intros Hwf. unfold x_axis_frame. destruct (String.eqb x "Date/Time").
  - destruct (date_time_values df) as [v|e] eqn:Hv; [|discriminate]. simpl.
    intros [= <-]. apply wf_setitem; [exact Hwf|].
    rewrite to_datetime_length. apply (date_time_values_length _ _ Hwf Hv).
  - now intros [= <-].
Qed.

Lemma x_col_of_has_column (df : DataFrame) (x : string) :
  x_col_of df = Return x -> String.eqb x "Date/Time" = false ->
  is_Some (column x df).
Proof.
  intros Hx Hne.
  destruct (x_col_of_cases df x Hx)
    as [[_ ->] | [(_ & _ & ->) | (_ & _ & (rest & Hfirst) & _)]];
    [discriminate | discriminate |].
  apply has_column_assoc, (first_column_has _ rest), Hfirst.
Qed.

Lemma x_axis_frame_has_x (x : string) (df df1 : DataFrame) :
  x_col_of df = Return x -> x_axis_frame x df = Return df1 ->
  is_Some (column x df1).
Proof.
  intros Hx Hf. destruct (String.eqb x "Date/Time") eqn:E.
  - apply String.eqb_eq in E. subst x.
    destruct (x_axis_frame_time _ _ Hf) as (v & _ & ->).
    rewrite column_setitem. simpl. eauto.
  - rewrite (x_axis_frame_not_time _ _ E) in Hf. injection Hf as <-.
    apply (x_col_of_has_column _ _ Hx E).
Qed.

(** X2. Whatever [prepare_data] answers, the store maps the same keys to the
    same objects afterwards, and every object other than the stored frame is
    as it was: only the stored frame can be changed, and nothing is removed. *)
Theorem prepare_data_frame (selected_cols : list string) (st st' : State)
    (r : result (option (loc * string))) :
  prepare_data selected_cols st = (r, st') ->
  uploaded_data_store st' = uploaded_data_store st
  /\ forall l df,
       heap st !! l = Some df ->
       uploaded_data_store st !! "data" <> Some l ->
       heap st' !! l = Some df.
Proof.
  intros Hrun.
  destruct (uploaded_data_store st !! "data") as [l0|] eqn:Hs.
  2:{ rewrite (prepare_data_no_data _ _ Hs) in Hrun. injection Hrun as _ <-.
      auto. }
  destruct (heap st !! l0) as [df0|] eqn:Hl.
  2:{ unfold prepare_data in Hrun. rewrite bind_run in Hrun.
      unfold store_get at 1 in Hrun. rewrite Hs, bind_run in Hrun.
      unfold deref at 1 in Hrun. rewrite Hl in Hrun.
      injection Hrun as _ <-. auto. }
  destruct (empty df0) eqn:He.
  { rewrite (prepare_data_empty _ _ _ _ Hs Hl He) in Hrun.
    injection Hrun as _ <-. auto. }
  rewrite (prepare_data_run _ _ _ _ Hs Hl He) in Hrun.
  assert (Hkeep : forall l df, heap st !! l = Some df ->
                    heap (working_state st l0 df0) !! l = Some df).
  { intros l df Hdf. unfold working_state. destruct (1000 <? len df0); [|exact Hdf].
    simpl. rewrite lookup_insert_ne; [exact Hdf|].
    intros E. pose proof (is_fresh (dom (heap st))) as Hf.
    rewrite E in Hf. apply Hf, elem_of_dom. eauto. }
  assert (Hloc : forall l df, heap st !! l = Some df -> Some l0 <> Some l ->
                   working_loc st l0 df0 <> l).
  { intros l df Hdf Hne. unfold working_loc. destruct (1000 <? len df0).
    - intros E. pose proof (is_fresh (dom (heap st))) as Hf.
      rewrite E in Hf. apply Hf, elem_of_dom. eauto.
    - congruence. }
  destruct (x_col_of (working_frame df0)) as [x|e].
  2:{ injection Hrun as _ <-. rewrite working_state_store. auto. }
  destruct (x_axis_frame x (working_frame df0)) as [df1|e].
  2:{ injection Hrun as _ <-. rewrite working_state_store. auto. }
  injection Hrun as _ <-. simpl. split; [reflexivity|].
  intros l df Hdf Hne. rewrite lookup_insert_ne by eauto. auto.
Qed.

(** X3. A table that [prepare_data] returns for a well-formed stored frame is
    well formed, has its x-axis column, and has every selected column, filled
    with numbers or missing numbers, one per row. *)
Theorem prepare_data_table_shape (selected_cols : list string) (st st' : State)
    (l0 l : loc) (df0 : DataFrame) (x : string) :
  uploaded_data_store st !! "data" = Some l0 ->
  heap st !! l0 = Some df0 ->
  wf df0 ->
  prepare_data selected_cols st = (Return (Some (l, x)), st') ->
  exists df',
    heap st' !! l = Some df'
    /\ wf df'
    /\ is_Some (column x df')
    /\ forall c, In c selected_cols ->
         exists s, column c df' = Some s
                   /\ Forall is_numeric (values s)
                   /\ length (values s) = len df'.
Proof.
  intros Hs Hl Hwf Hrun.
  destruct (prepare_data_result _ _ _ _ _ _ _ Hs Hl Hrun)
    as (-> & Hx & _ & df1 & Hf & Hheap).
  pose proof (wf_x_axis_frame _ _ _ (working_frame_wf _ Hwf) Hf) as Hwf1.
  exists (coerce_all selected_cols df1).
  split; [rewrite Hheap; apply lookup_insert_eq|].
  split; [apply wf_coerce_all, Hwf1|]. split.
  - rewrite coerce_all_column. destruct (existsb _ _); [eauto|].
    apply (x_axis_frame_has_x _ _ _ Hx Hf).
  - intros c Hc. exists (numeric_column c df1).
    assert (Hex : existsb (String.eqb c) selected_cols = true).
    { apply existsb_exists. exists c. split; [exact Hc | apply String.eqb_refl]. }
    rewrite coerce_all_column, Hex. split; [reflexivity|].
    split; [apply numeric_column_numeric|].
    rewrite coerce_all_len. apply numeric_column_len, Hwf1.
Qed.

(** X4. A returned table keeps every row of a stored frame of at most 1000
    rows; of a larger frame it has at least 1000 and fewer than 2000 rows, and
    exactly 1000 only when the row count is a multiple of 1000. *)
Theorem prepare_data_row_count (selected_cols : list string) (st st' : State)
    (l0 l : loc) (df0 : DataFrame) (x : string) :
  uploaded_data_store st !! "data" = Some l0 ->
  heap st !! l0 = Some df0 ->
  prepare_data selected_cols st = (Return (Some (l, x)), st') ->
  exists df',
    heap st' !! l = Some df'
    /\ (len df0 <= MAX_POINTS -> index df' = index df0)
    /\ (MAX_POINTS < len df0 ->
        MAX_POINTS <= len df' < 2 * MAX_POINTS
        /\ (len df' = MAX_POINTS <-> len df0 mod MAX_POINTS = 0)).
Proof.
  unfold MAX_POINTS. intros Hs Hl Hrun.
  destruct (prepare_data_result _ _ _ _ _ _ _ Hs Hl Hrun)
    as (-> & Hx & _ & df1 & Hf & Hheap).
  exists (coerce_all selected_cols df1).
  split; [rewrite Hheap; apply lookup_insert_eq|].
  assert (Hidx : index (coerce_all selected_cols df1) = index (working_frame df0)).
  { rewrite coerce_all_index. apply (x_axis_frame_index _ _ _ Hf). }
  split.
  - intros Hn. rewrite Hidx. now rewrite (working_frame_small df0 Hn).
  - intros Hn.
    assert (Hlen : len (coerce_all selected_cols df1) = len (working_frame df0))
      by (unfold len; now rewrite Hidx).
    rewrite Hlen. destruct (working_frame_rows df0 Hn) as [Hb Heq].
    split; [lia | exact Heq].
Qed.

End PrepareInvariants.

Lemma prepare_data_frame_witness :
  uploaded_data_store
    (snd (prepare_data ["Chiller1_Power"] (state_with (power_frame 3))))
  = uploaded_data_store (state_with (power_frame 3)).
Proof.
  apply (prepare_data_frame ["Chiller1_Power"] (state_with (power_frame 3))
           (snd (prepare_data ["Chiller1_Power"] (state_with (power_frame 3))))
           (fst (prepare_data ["Chiller1_Power"] (state_with (power_frame 3))))).
  reflexivity.
Defined.

Lemma prepare_data_table_shape_witness :
  exists df',
    heap (snd (prepare_data ["Chiller1_Power"; "Flow"]
                 (state_with (power_frame 3)))) !! 1%positive = Some df'
    /\ wf df'.
Proof.
  destruct (prepare_data_table_shape ["Chiller1_Power"; "Flow"]
              (state_with (power_frame 3))
              (snd (prepare_data ["Chiller1_Power"; "Flow"]
                      (state_with (power_frame 3))))
              1%positive 1%positive
              (power_frame 3) "Chiller1_Power" eq_refl eq_refl)
    as (df' & Hheap & Hwf & _).
  - repeat constructor.
  - reflexivity.
  - exists df'. split; assumption.
Defined.

Lemma prepare_data_row_count_witness :
  exists df',
    heap (snd (prepare_data [] (state_with (power_frame 3)))) !! 1%positive
    = Some df'
    /\ index df' = [0; 1; 2].
Proof.
  destruct (prepare_data_row_count [] (state_with (power_frame 3))
              (snd (prepare_data [] (state_with (power_frame 3))))
              1%positive 1%positive (power_frame 3) "Chiller1_Power"
              eq_refl eq_refl)
    as (df' & Hheap & Hsmall & _).
  - reflexivity.
  - exists df'. split; [exact Hheap|].
    apply Hsmall. vm_compute. lia.
Defined.

(** ** Preparing twice *)

Section PrepareTwice.
Context `{Library}.

Lemma assoc_set_same (c : string) (s : Series) (l : list (string * Series)) :
  assoc c l = Some s -> assoc_set c s l = l.
Proof.
  induction l as [|[c' s'] r IH]; simpl; [discriminate|].
  destruct (String.eqb c c') eqn:E.
  - apply String.eqb_eq in E. subst c'. now intros [= ->].
  - intros Hs. now rewrite (IH Hs).
Qed.

Lemma setitem_same (c : string) (s : Series) (df : DataFrame) :
  column c df = Some s -> setitem c s df = df.
Proof.
  unfold column, setitem. intros Hs. rewrite (assoc_set_same _ _ _ Hs).
  now destruct df.
Qed.

Lemma assoc_set_columns (c : string) (s : Series) (l : list (string * Series)) :
  is_Some (assoc c l) -> map fst (assoc_set c s l) = map fst l.
Proof.
  induction l as [|[c' s'] r IH]; simpl; [intros [? [=]]|].
  destruct (String.eqb c c') eqn:E; simpl.
  - apply String.eqb_eq in E. now subst c'.
  - intros Hs. now rewrite (IH Hs).
Qed.

Lemma setitem_columns (c : string) (s : Series) (df : DataFrame) :
  has_column c df = true -> columns (setitem c s df) = columns df.
Proof.
  intros Hc. apply has_column_assoc in Hc. unfold columns, setitem. simpl.
  now apply assoc_set_columns.
Qed.

Lemma has_column_columns (c : string) (d1 d2 : DataFrame) :
  columns d1 = columns d2 -> has_column c d1 = has_column c d2.
Proof. unfold has_column. now intros ->. Qed.

(** Coercing columns that exist keeps the column names and their order. *)
Lemma coerce_all_columns (sel : list string) (df : DataFrame) :
  (forall c, In c sel -> has_column c df = true) ->
  columns (coerce_all sel df) = columns df.
Proof.
  revert df. induction sel as [|c sel IH]; intros df Hsel; [reflexivity|].
  rewrite coerce_all_cons.
  assert (Hc : columns (setitem c (numeric_column c df) df) = columns df)
    by (apply setitem_columns, Hsel; now left).
  rewrite IH, Hc; [reflexivity|].
  intros c' Hc'. rewrite (has_column_columns _ _ _ Hc). apply Hsel. now right.
Qed.

Lemma to_numeric_numeric_column (c : string) (df : DataFrame) :
  to_numeric (numeric_column c df) = numeric_column c df.
Proof.
  unfold numeric_column. destruct (assoc c (data df)) as [s|].
  - apply to_numeric_idem.
  - unfold to_numeric. simpl. f_equal.
    induction (len df) as [|n IH]; simpl; [reflexivity | now rewrite IH].
Qed.

Lemma coerce_all_fixed (sel : list string) (df : DataFrame) :
  (forall c, In c sel -> column c df = Some (numeric_column c df)) ->
  coerce_all sel df = df.
Proof.
  induction sel as [|c sel IH]; intros Hfix; [reflexivity|].
  rewrite coerce_all_cons, setitem_same by (apply Hfix; now left).
  apply IH. intros c' Hc'. apply Hfix. now right.
Qed.

(** The loop of line 139 changes nothing when it is run a second time. *)
Lemma coerce_all_idem (sel : list string) (df : DataFrame) :
  coerce_all sel (coerce_all sel df) = coerce_all sel df.
Proof.
  apply coerce_all_fixed. intros c Hc.
  assert (Hex : existsb (String.eqb c) sel = true).
  { apply existsb_exists. exists c. split; [exact Hc | apply String.eqb_refl]. }
  assert (Hcol : column c (coerce_all sel df) = Some (numeric_column c df))
    by now rewrite coerce_all_column, Hex.
  rewrite Hcol. f_equal. unfold numeric_column at 2.
  fold (column c (coerce_all sel df)). rewrite Hcol.
  symmetry. apply to_numeric_numeric_column.
Qed.

Lemma x_col_of_columns (d1 d2 : DataFrame) :
  columns d1 = columns d2 -> x_col_of d1 = x_col_of d2.
Proof.
  intros Hc. unfold x_col_of.
  rewrite !(has_column_columns _ d1 d2 Hc), Hc. reflexivity.
Qed.

(** X5. For a stored frame of at most 1000 rows whose x axis is not a time
    axis, and a selection of columns the frame has, a second [prepare_data]
    with the same selection returns the same table and changes nothing: the
    conversion done in place by the first call is stable. *)
Theorem prepare_data_twice (selected_cols : list string) (st st' : State)
    (l0 l : loc) (df0 : DataFrame) (x : string) :
  uploaded_data_store st !! "data" = Some l0 ->
  heap st !! l0 = Some df0 ->
  len df0 <= MAX_POINTS ->
  (forall c, In c selected_cols -> has_column c df0 = true) ->
  String.eqb x "Date/Time" = false ->
  prepare_data selected_cols st = (Return (Some (l, x)), st') ->
  prepare_data selected_cols st' = (Return (Some (l, x)), st').
Proof.
  unfold MAX_POINTS. intros Hs Hl Hn Hsel Hx Hrun.
  destruct (prepare_data_result _ _ _ _ _ _ _ Hs Hl Hrun)
    as (-> & Hxc & Hstore & df1 & Hf & Hheap).
  destruct (working_small st l0 df0 Hn) as (El & Est & Ewf).
  rewrite El, Est, Ewf in *.
  rewrite (x_axis_frame_not_time _ _ Hx) in Hf. injection Hf as <-.
  set (df' := coerce_all selected_cols df0) in *.
  assert (Hcols : columns df' = columns df0) by apply coerce_all_columns, Hsel.
  assert (Hlen : len df' = len df0) by apply coerce_all_len.
  assert (He : empty df' = false).
  { destruct (empty df0) eqn:He0.
    - rewrite (prepare_data_empty _ _ _ _ Hs Hl He0) in Hrun. discriminate.
    - unfold empty in *. now rewrite Hcols, Hlen. }
  assert (Hl' : heap st' !! l0 = Some df') by (rewrite Hheap; apply lookup_insert_eq).
  assert (Hs' : uploaded_data_store st' !! "data" = Some l0) by now rewrite Hstore.
  assert (Hn' : len df' <= 1000) by lia.
  rewrite (prepare_data_run _ _ _ _ Hs' Hl' He).
  destruct (working_small st' l0 df' Hn') as (El' & Est' & Ewf').
  rewrite El', Est', Ewf'.
  rewrite (x_col_of_columns df' df0 Hcols), Hxc, (x_axis_frame_not_time _ _ Hx).
  unfold df' at 1. rewrite coerce_all_idem. fold df'.
  rewrite (insert_id _ _ _ Hl'). destruct st'; reflexivity.
Qed.

End PrepareTwice.

Lemma prepare_data_twice_witness :
  prepare_data ["Chiller1_Power"]
    (snd (prepare_data ["Chiller1_Power"] (state_with (power_frame 3))))
  = (Return (Some (1%positive, "Chiller1_Power")),
     snd (prepare_data ["Chiller1_Power"] (state_with (power_frame 3)))).
Proof.
  apply (prepare_data_twice ["Chiller1_Power"] (state_with (power_frame 3))
           (snd (prepare_data ["Chiller1_Power"] (state_with (power_frame 3))))
           1%positive 1%positive (power_frame 3) "Chiller1_Power").
  - reflexivity.
  - reflexivity.
  - vm_compute. lia.
  - intros c [<- | []]. reflexivity.
  - reflexivity.
  - reflexivity.
Defined.

(** ** Uploads that go through, and what failures leave behind *)

Section UploadMore.
Context `{Library}.

Lemma fresh_heap (st : State) : heap st !! fresh (dom (heap st)) = None.
Proof. apply not_elem_of_dom, is_fresh. Qed.

(** X6. An upload with a name ending in .csv whose payload splits, decodes and parses puts
    the parsed frame into the store as a new object and answers with the
    success message; objects that existed before, such as a frame uploaded
    earlier or a table returned earlier, are untouched; and a later call
    without contents reports this frame as still available. *)
Theorem upload_success (contents content_string name text : string)
    (decoded : bytes) (df : DataFrame) (st : State) :
  truthy (Some contents) = true ->
  unpack_two (PyStr.split "," contents) = Return content_string ->
  b64decode content_string = Return decoded ->
  PyStr.endswith name ".csv" = true ->
  utf8_decode decoded = Return text ->
  read_csv text = Return df ->
  exists l st',
    process_file_upload (Some contents) (Some name) st
    = (Return (success_message name df), st')
    /\ heap st !! l = None
    /\ uploaded_data_store st' !! "data" = Some l
    /\ heap st' !! l = Some df
    /\ stored_frame st' = Some df
    /\ wf df
    /\ (forall l' d, heap st !! l' = Some d -> heap st' !! l' = Some d)
    /\ (forall filename,
          process_file_upload None filename st'
          = (Return (status_message df), st')).
Proof.
  intros Ht Hu Hb Hn Hd Hr.
  exists (fresh (dom (heap st))).
  exists {| heap := <[fresh (dom (heap st)) := df]> (heap st);
            uploaded_data_store :=
              <["data" := fresh (dom (heap st))]> (uploaded_data_store st) |}.
  split.
  { rewrite (process_file_upload_decoded _ _ _ _ _ Ht Hu Hb), try_except_run.
    unfold upload_body. rewrite Hn. change (negb true) with false. cbv iota.
    rewrite bind_run. unfold lift at 1. rewrite Hd.
    rewrite bind_run. unfold lift at 1. rewrite Hr. reflexivity. }
  split; [apply fresh_heap|]. cbn [heap uploaded_data_store].
  split; [apply lookup_insert_eq|]. split; [apply lookup_insert_eq|].
  split.
  { unfold stored_frame. cbn [heap uploaded_data_store].
    rewrite lookup_insert_eq. simpl. apply lookup_insert_eq. }
  split; [apply (read_csv_wf _ _ Hr)|]. split.
  - intros l' d Hd'. rewrite lookup_insert_ne; [exact Hd'|].
    intros E. rewrite <- E, fresh_heap in Hd'. discriminate.
  - intros filename. unfold process_file_upload.
    change (truthy None) with false. cbv iota.
    rewrite bind_run. unfold store_get. cbn [uploaded_data_store].
    rewrite lookup_insert_eq. rewrite bind_run. unfold deref. cbn [heap].
    rewrite lookup_insert_eq. reflexivity.
Qed.

(** X7. When the payload of an upload named .csv is not UTF-8 or does not parse as a
    table, the handler answers with the generic message followed by the text
    of the error, through [handle_file_upload] as well, and the state is the
    one before: the dataset uploaded earlier stays the stored one. *)
Theorem upload_failure_keeps_dataset (contents content_string name : string)
    (decoded : bytes) (e : exception) (st : State) :
  truthy (Some contents) = true ->
  unpack_two (PyStr.split "," contents) = Return content_string ->
  b64decode content_string = Return decoded ->
  PyStr.endswith name ".csv" = true ->
  (utf8_decode decoded = Raise e
   \/ exists text, utf8_decode decoded = Return text /\ read_csv text = Raise e) ->
  handle_file_upload (Some "upload-data") (Some contents) None (Some name) st
  = (Return (Div [P "There was an error processing the file."; P (exn_str e)]),
     st)
  /\ stored_frame
       (snd (handle_file_upload (Some "upload-data") (Some contents) None
               (Some name) st))
     = stored_frame st.
Proof.
  intros Ht Hu Hb Hn Hfail. rewrite handle_file_upload_not_reset.
  rewrite (upload_parse_failure_caught _ _ _ _ _ _ Ht Hu Hb Hn Hfail).
  split; reflexivity.
Qed.

End UploadMore.

Lemma upload_success_witness :
  exists st',
    process_file_upload
      (Some "data:text/csv;base64,Q2hpbGxlcjFfUG93ZXIsQ0hXU19UZW1wLFRpbWVzdGFtcAoxLDIsMwo=")
      (Some "plant.csv") initial_state
    = (Return (Div [P "Successfully uploaded: plant.csv";
                    P "Dataset has 1 rows and 3 columns.";
                    P "Detected Chiller Power columns: Chiller1_Power";
                    P "Detected Supply Temp columns: CHWS_Temp";
                    P "Detected Return Temp columns: None";
                    P "All columns in dataset: Chiller1_Power, CHWS_Temp, Timestamp"]),
       st').
Proof.
  destruct (upload_success
              "data:text/csv;base64,Q2hpbGxlcjFfUG93ZXIsQ0hXU19UZW1wLFRpbWVzdGFtcAoxLDIsMwo="
              "Q2hpbGxlcjFfUG93ZXIsQ0hXU19UZW1wLFRpbWVzdGFtcAoxLDIsMwo="
              "plant.csv"
              "Chiller1_Power,CHWS_Temp,Timestamp
1,2,3
"
              "Chiller1_Power,CHWS_Temp,Timestamp
1,2,3
"
              {| index := [0];
                 data := [("Chiller1_Power",
                           {| dtype_of := Numeric; values := [Number 1] |});
                          ("CHWS_Temp",
                           {| dtype_of := Numeric; values := [Number 2] |});
                          ("Timestamp",
                           {| dtype_of := Numeric; values := [Number 3] |})] |}
              initial_state)
    as (l & st' & Hrun & _); try reflexivity.
  exists st'. exact Hrun.
Defined.

Lemma upload_failure_keeps_dataset_witness :
  handle_file_upload (Some "upload-data") (Some "data:text/csv;base64,/w==")
    None (Some "plant.csv") (state_with (power_frame 3))
  = (Return (Div [P "There was an error processing the file.";
                  P "'utf-8' codec can't decode byte: invalid start byte"]),
     state_with (power_frame 3)).
Proof.
  apply (upload_failure_keeps_dataset "data:text/csv;base64,/w==" "/w=="
           "plant.csv" (String (ascii_of_nat 255) "")
           (Exception UnicodeDecodeError
              "'utf-8' codec can't decode byte: invalid start byte")
           (state_with (power_frame 3))); try reflexivity.
  left. reflexivity.
Defined.

(** ** States the callbacks can reach *)

Section Reachable.
Context `{Library}.

Lemma store_ok_same_store (st st' : State) :
  uploaded_data_store st' = uploaded_data_store st ->
  (forall l0 df0,
     uploaded_data_store st !! "data" = Some l0 ->
     heap st !! l0 = Some df0 -> wf df0 ->
     exists df', heap st' !! l0 = Some df' /\ wf df') ->
  store_ok st -> store_ok st'.
Proof.
  intros Hstore Hheap Hok k l Hk. rewrite Hstore in Hk.
  destruct (Hok k l Hk) as (-> & df0 & Hl & Hwf). split; [reflexivity|].
  apply (Hheap l df0 Hk Hl Hwf).
Qed.

(** The upload handler leaves the state as it is or stores a new frame that
    [read_csv] produced. *)
Lemma process_file_upload_outcome (contents filename : option string)
    (st st' : State) (r : result html) :
  process_file_upload contents filename st = (r, st') ->
  st' = st
  \/ exists df,
       wf df
       /\ st' = {| heap := <[fresh (dom (heap st)) := df]> (heap st);
                   uploaded_data_store :=
                     <["data" := fresh (dom (heap st))]> (uploaded_data_store st) |}.
Proof.
  unfold process_file_upload. destruct (truthy contents).
  - rewrite bind_run. unfold lift at 1.
    destruct (unpack_two _) as [content_string|e]; [|intros [= _ <-]; now left].
    rewrite bind_run. unfold lift at 1.
    destruct (b64decode content_string) as [decoded|e];
      [|intros [= _ <-]; now left].
    rewrite try_except_run. unfold upload_body.
    destruct filename as [name|]; [|intros [= _ <-]; now left].
    destruct (negb (PyStr.endswith name ".csv")); [intros [= _ <-]; now left|].
    rewrite bind_run. unfold lift at 1.
    destruct (utf8_decode decoded) as [text|e]; [|intros [= _ <-]; now left].
    rewrite bind_run. unfold lift at 1.
    destruct (read_csv text) as [df|e] eqn:Hr; [|intros [= _ <-]; now left].
    intros [= _ <-]. right. exists df.
    split; [apply (read_csv_wf _ _ Hr) | reflexivity].
  - rewrite bind_run. unfold store_get.
    destruct (uploaded_data_store st !! "data") as [l|];
      [|intros [= _ <-]; now left].
    rewrite bind_run. unfold deref.
    destruct (heap st !! l); intros [= _ <-]; now left.
Qed.

(** The upload handler leaves the state as it is or stores a new frame that
    [read_csv] produced. *)
Lemma process_file_upload_state (contents filename : option string) (st : State) :
  snd (process_file_upload contents filename st) = st
  \/ exists df,
       wf df
       /\ snd (process_file_upload contents filename st)
          = {| heap := <[fresh (dom (heap st)) := df]> (heap st);
               uploaded_data_store :=
                 <["data" := fresh (dom (heap st))]> (uploaded_data_store st) |}.
Proof.
  destruct (process_file_upload contents filename st) as [r st'] eqn:E.
  apply (process_file_upload_outcome _ _ _ _ _ E).
Qed.

Lemma handle_file_upload_ok (triggered_id contents filename : option string)
    (reset_clicks : option nat) (st : State) :
  store_ok st ->
  store_ok (snd (handle_file_upload triggered_id contents reset_clicks filename st)).
Proof.
  intros Hok. unfold handle_file_upload. case_bool_decide.
  - intros k l Hk. simpl in Hk. rewrite lookup_empty in Hk. discriminate.
  - destruct (process_file_upload_state contents filename st)
      as [-> | (df & Hwf & ->)]; [exact Hok|].
    intros k l Hk. cbn [heap uploaded_data_store] in *.
    destruct (decide ("data" = k)) as [<-|Hne].
    + rewrite lookup_insert_eq in Hk. injection Hk as <-.
      split; [reflexivity|]. exists df. now rewrite lookup_insert_eq.
    + rewrite lookup_insert_ne in Hk by exact Hne.
      destruct (Hok k l Hk) as [-> _]. contradiction.
Qed.

Lemma prepare_data_ok (sel : list string) (st : State) :
  store_ok st -> store_ok (snd (prepare_data sel st)).
Proof.
  intros Hok.
  destruct (uploaded_data_store st !! "data") as [l0|] eqn:Hs.
  2:{ now rewrite (prepare_data_no_data _ _ Hs). }
  destruct (Hok _ _ Hs) as (_ & df0 & Hl & Hwf).
  destruct (empty df0) eqn:He.
  { now rewrite (prepare_data_empty _ _ _ _ Hs Hl He). }
  rewrite (prepare_data_run _ _ _ _ Hs Hl He).
  assert (Hws : store_ok (working_state st l0 df0)).
  { apply (store_ok_same_store st); [apply working_state_store | | exact Hok].
    intros l1 df1 Hs1 Hl1 Hwf1. exists df1. split; [|exact Hwf1].
    unfold working_state. destruct (1000 <? len df0); [|exact Hl1].
    simpl. rewrite lookup_insert_ne; [exact Hl1|].
    intros E. rewrite <- E, fresh_heap in Hl1. discriminate. }
  destruct (x_col_of (working_frame df0)) as [x|e]; [|exact Hws].
  destruct (x_axis_frame x (working_frame df0)) as [df1|e] eqn:Hf; [|exact Hws].
  simpl. apply (store_ok_same_store st); [reflexivity | | exact Hok].
  intros l1 d1 Hs1 Hl1 Hwf1. cbn [heap].
  assert (l1 = l0) by congruence. subst l1.
  assert (d1 = df0) by congruence. subst d1.
  destruct (Nat.le_gt_cases (len df0) 1000) as [Hn|Hn].
  - destruct (working_small st l0 df0 Hn) as (El & Est & Ewf).
    rewrite El, Est, Ewf in *. exists (coerce_all sel df1).
    split; [apply lookup_insert_eq|].
    apply wf_coerce_all, (wf_x_axis_frame _ _ _ Hwf Hf).
  - exists df0. split; [|exact Hwf].
    rewrite lookup_insert_ne.
    + apply (working_state_stored _ _ _ Hl Hn).
    + intros E. rewrite <- E, (working_loc_fresh _ _ _ Hn) in Hl. discriminate.
Qed.

(** [get_page_content] only reads. *)
Lemma get_page_content_state (triggered : list string) (st : State) :
  snd (get_page_content triggered st) = st.
Proof.
  unfold get_page_content.
  destruct (String.eqb (active_tab triggered) "nav-dashboard").
  - rewrite bind_run. unfold store_get.
    destruct (uploaded_data_store st !! "data") as [l|]; [|reflexivity].
    rewrite bind_run. unfold deref. destruct (heap st !! l) as [df|]; [|reflexivity].
    destruct (negb (empty df)); reflexivity.
  - destruct (String.eqb (active_tab triggered) "nav-data-upload"); reflexivity.
Qed.

Lemma update_graph_state (vars : graph_vars) (cols : option (list string))
    (st : State) :
  snd (update_graph vars cols st) = snd (prepare_data (or_empty cols) st).
Proof.
  unfold update_graph. rewrite bind_run.
  destruct (prepare_data (or_empty cols) st) as [[prepared|e] st']; reflexivity.
Qed.

Lemma step_ok (st : State) (ev : event) : store_ok st -> store_ok (step st ev).
Proof.
  intros Hok. destruct ev as [t c r f | cols | triggered]; simpl.
  - apply handle_file_upload_ok, Hok.
  - unfold call_graph_callback. simpl. rewrite update_graph_state.
    apply prepare_data_ok, Hok.
  - now rewrite get_page_content_state.
Qed.

(** X9. After any sequence of uploads, resets, graph updates and page
    changes from the start of the process, the store has no key other than
    "data", the reference under it is live, and the frame behind it has one
    cell per row in every column, whatever conversions were done in place. *)
Theorem reachable_store_ok (evs : list event) :
  store_ok (run evs initial_state)
  /\ (forall k, is_Some (uploaded_data_store (run evs initial_state) !! k) ->
        k = "data")
  /\ (stored_frame (run evs initial_state) = None
      /\ uploaded_data_store (run evs initial_state) !! "data" = None
      \/ exists df, stored_frame (run evs initial_state) = Some df /\ wf df).
Proof.
  assert (Hok : store_ok (run evs initial_state)).
  { assert (Hgen : forall st, store_ok st -> store_ok (run evs st)).
    { induction evs as [|ev evs IH]; intros st Hst; [exact Hst|].
      simpl. apply IH, step_ok, Hst. }
    apply Hgen. intros k l Hk. simpl in Hk. rewrite lookup_empty in Hk.
    discriminate. }
  split; [exact Hok|]. split.
  - intros k [l Hk]. apply (Hok k l Hk).
  - unfold stored_frame.
    destruct (uploaded_data_store (run evs initial_state) !! "data")
      as [l|] eqn:Hs; simpl.
    + right. destruct (Hok _ _ Hs) as (_ & df & Hl & Hwf). eauto.
    + left. auto.
Qed.

End Reachable.

(** ** Graph callbacks *)

Section GraphFacts.
Context `{Library}.

Lemma prepare_data_none_state (sel : list string) (st st' : State) :
  prepare_data sel st = (Return None, st') -> st' = st.
Proof.
  intros Hrun.
  destruct (uploaded_data_store st !! "data") as [l0|] eqn:Hs.
  2:{ rewrite (prepare_data_no_data _ _ Hs) in Hrun. now injection Hrun. }
  destruct (heap st !! l0) as [df0|] eqn:Hl.
  2:{ unfold prepare_data in Hrun. rewrite bind_run in Hrun.
      unfold store_get at 1 in Hrun. rewrite Hs, bind_run in Hrun.
      unfold deref at 1 in Hrun. rewrite Hl in Hrun. discriminate. }
  destruct (empty df0) eqn:He.
  { rewrite (prepare_data_empty _ _ _ _ Hs Hl He) in Hrun. now injection Hrun. }
  rewrite (prepare_data_run _ _ _ _ Hs Hl He) in Hrun.
  destruct (x_col_of (working_frame df0)); [|discriminate].
  destruct (x_axis_frame _ (working_frame df0)); discriminate.
Qed.

(** X10. The three graph callbacks are registered for the power, supply and
    return graphs, each fed by the checklist of its own section, but the
    function they share reads its title and axis label when it is called:
    whichever graph is updated, a figure with data is titled "Chiller Water
    Return Temperature" and every figure has the y-axis title
    "Temperature (°C)", also the power graph, whose own entry says "Chiller
    Power" and "Power (kW)". The figure plots the selected columns of the
    table [prepare_data] returned, and is empty when there is no table. *)
Theorem graph_titles_late_bound (cols : option (list string)) (st st' : State)
    (fig : figure) :
  call_graph_callback cols st = (Return fig, st') ->
  map (fun cb => (cb_inputs cb, cb_outputs cb)) (fst register_graphs)
  = [(["chiller-power-checklist"], ["chiller-power-graph"]);
     (["supply-temp-checklist"], ["supply-temp-graph"]);
     (["return-temp-checklist"], ["return-temp-graph"])]
  /\ GRAPHS !! 0 = Some (GraphVars "chiller-power-graph" "Chiller Power"
                           "Power (kW)" "chiller-power-checklist")
  /\ fig_yaxis_title fig = Some "Temperature (°C)"
  /\ (fig_data fig = None /\ fig_title fig = None /\ fig_y fig = []
      /\ st' = st
      /\ prepare_data (or_empty cols) st = (Return None, st)
      \/ exists l x,
           fig_data fig = Some (l, x)
           /\ fig_title fig = Some "Chiller Water Return Temperature"
           /\ fig_y fig = or_empty cols
           /\ prepare_data (or_empty cols) st = (Return (Some (l, x)), st')).
Proof.
  intros Hcall. split; [reflexivity|]. split; [reflexivity|].
  unfold call_graph_callback in Hcall. simpl in Hcall.
  unfold update_graph in Hcall. rewrite bind_run in Hcall.
  destruct (prepare_data (or_empty cols) st) as [[prepared|e] st1] eqn:Hrun;
    [|discriminate].
  destruct prepared as [[l x]|]; injection Hcall as <- <-; simpl.
  - split; [reflexivity|]. right. exists l, x. auto.
  - split; [reflexivity|]. left.
    pose proof (prepare_data_none_state _ _ _ Hrun) as ->. auto.
Qed.

End GraphFacts.

Lemma graph_titles_late_bound_witness :
  exists fig,
    call_graph_callback (Some ["Chiller1_Power"]) (state_with (power_frame 3))
    = (Return fig,
       snd (call_graph_callback (Some ["Chiller1_Power"])
              (state_with (power_frame 3))))
    /\ fig_title fig = Some "Chiller Water Return Temperature"
    /\ fig_yaxis_title fig = Some "Temperature (°C)".
Proof.
  eexists. split; [reflexivity|].
  destruct (graph_titles_late_bound (Some ["Chiller1_Power"])
              (state_with (power_frame 3)) _ _ eq_refl)
    as (_ & _ & Hy & _).
  split; [reflexivity | exact Hy].
Defined.

(** ** Tabs and pages *)

Section TabFacts.

Lemma list_index_not_in (x : string) (l : list string) :
  ~ In x l ->
  list_index x l = Raise (Exception ValueError ("'" +:+ x +:+ "' is not in list")).
Proof.
  induction l as [|y l IH]; intros Hn; [reflexivity|]. simpl.
  destruct (String.eqb y x) eqn:E.
  - apply String.eqb_eq in E. subst y. exfalso. apply Hn. now left.
  - rewrite IH; [reflexivity|]. intros Hin. apply Hn. now right.
Qed.

Lemma styles_differ : active_style <> inactive_style.
Proof.
  intros E. assert (Hc : active_style !! "color" = inactive_style !! "color")
    by now rewrite E.
  vm_compute in Hc. discriminate.
Qed.

(** X11. For a click on one of the three tabs, [update_tab_styles] answers
    with three styles in the order of the tabs, the active style for the
    clicked tab and the inactive one, which differs from it, for the two
    others; with nothing clicked the upload tab is the active one; for any
    other id the lookup of the tab raises a [ValueError]. *)
Theorem tab_styles_highlight (triggered : list string) :
  (In (active_tab triggered) TABS ->
   exists styles,
     update_tab_styles triggered = Return styles
     /\ length styles = 3
     /\ forall j tab, TABS !! j = Some tab ->
          styles !! j = Some (if String.eqb tab (active_tab triggered)
                              then active_style else inactive_style))
  /\ (~ In (active_tab triggered) TABS ->
      exists e, update_tab_styles triggered = Raise e /\ exn_cls e = ValueError)
  /\ active_style <> inactive_style
  /\ update_tab_styles [] = Return [inactive_style; active_style; inactive_style].
Proof.
  split; [|split; [|split; [exact styles_differ | reflexivity]]].
  - intros Hin. unfold update_tab_styles.
    generalize active_style inactive_style. intros a b.
    destruct Hin as [E | [E | [E | []]]]; rewrite <- E;
      eexists; (split; [reflexivity|]); (split; [reflexivity|]);
      intros [|[|[|j]]] tab Htab; try discriminate Htab;
      injection Htab as <-; reflexivity.
  - intros Hn. unfold update_tab_styles. rewrite (list_index_not_in _ _ Hn).
    eexists. split; reflexivity.
Qed.

End TabFacts.

Lemma tab_styles_highlight_witness :
  (exists styles, update_tab_styles ["nav-settings.n_clicks"] = Return styles)
  /\ exists e, update_tab_styles ["upload-data.contents"] = Raise e.
Proof.
  split.
  - destruct (proj1 (tab_styles_highlight ["nav-settings.n_clicks"]))
      as (styles & Hrun & _); [right; right; left; reflexivity|].
    exists styles. exact Hrun.
  - destruct (proj1 (proj2 (tab_styles_highlight ["upload-data.contents"])))
      as (e & Hrun & _).
    + intros [E | [E | [E | []]]]; discriminate E.
    + exists e. exact Hrun.
Defined.

Section PageFacts.
Import Classifier.

Lemma section_card_graphs (s : string * string * list string * string) :
  graph_ids (section_card s) = [snd s].
Proof.
  destruct s as [[[title check_id] cols] graph]. simpl.
  destruct cols; reflexivity.
Qed.

Lemma section_card_checklists (s : string * string * list string * string) :
  checklists (section_card s) = [(snd (fst (fst s)), snd (fst s), snd (fst s))].
Proof.
  destruct s as [[[title check_id] cols] graph]. simpl.
  rewrite map_map, map_id. destruct cols; reflexivity.
Qed.

Lemma section_card_ids (s : string * string * list string * string) :
  ids (section_card s) = [snd (fst (fst s)); snd s].
Proof.
  destruct s as [[[title check_id] cols] graph]. simpl.
  destruct cols; reflexivity.
Qed.

Lemma notice_has_no_ids (b : bool) (text : string) :
  ids (if b then para text else Absent) = []
  /\ graph_ids (if b then para text else Absent) = []
  /\ checklists (if b then para text else Absent) = [].
Proof. destruct b; repeat split. Qed.

Lemma dashboard_page_ids (df : DataFrame) :
  ids (dashboard_page df)
  = ["chiller-power-checklist"; "chiller-power-graph";
     "supply-temp-checklist"; "supply-temp-graph";
     "return-temp-checklist"; "return-temp-graph"].
Proof.
  unfold dashboard_page, sections.
  cbn [ids flat_map map]. rewrite !section_card_ids.
  rewrite (proj1 (notice_has_no_ids _ _)). reflexivity.
Qed.

(** X12. The dashboard page of a stored frame shows three cards in the order
    power, supply, return; in each the checklist offers exactly the columns
    classified for it and has all of them selected, followed by the graph of
    that section. The list of available columns is shown only when no column
    was classified at all, and a card says that no columns were detected
    exactly when its list is empty. The placeholder, upload and settings
    pages have no graph and no checklist. *)
Theorem dashboard_page_content (df : DataFrame) :
  graph_ids (dashboard_page df)
  = ["chiller-power-graph"; "supply-temp-graph"; "return-temp-graph"]
  /\ checklists (dashboard_page df)
     = [("chiller-power-checklist", power_cols (columns df),
         power_cols (columns df));
        ("supply-temp-checklist", supply_cols (columns df),
         supply_cols (columns df));
        ("return-temp-checklist", return_cols (columns df),
         return_cols (columns df))]
  /\ texts (dashboard_page df)
     = (match power_cols (columns df), supply_cols (columns df),
              return_cols (columns df) with
        | [], [], [] =>
            ["Available columns in dataset: " +:+ PyStr.join ", " (columns df)]
        | _, _, _ => []
        end
        ++ "Chiller Power"
           :: (match power_cols (columns df) with
               | [] => ["No columns detected for Chiller Power."]
               | _ => []
               end
               ++ "Supply Temperature"
                  :: (match supply_cols (columns df) with
                      | [] => ["No columns detected for Supply Temperature."]
                      | _ => []
                      end
                      ++ "Return Temperature"
                         :: match return_cols (columns df) with
                            | [] => ["No columns detected for Return Temperature."]
                            | _ => []
                            end)))%list
  /\ (forall page,
        In page [dashboard_placeholder; upload_page; settings_page] ->
        graph_ids page = [] /\ checklists page = []).
Proof.
  split; [|split; [|split]].
  - unfold dashboard_page, sections. cbn [graph_ids flat_map map].
    rewrite !section_card_graphs.
    rewrite (proj1 (proj2 (notice_has_no_ids _ _))). reflexivity.
  - unfold dashboard_page, sections. cbn [checklists flat_map map].
    rewrite !section_card_checklists.
    rewrite (proj2 (proj2 (notice_has_no_ids _ _))). reflexivity.
  - unfold dashboard_page, sections.
    destruct (power_cols (columns df)), (supply_cols (columns df)),
      (return_cols (columns df)); reflexivity.
  - intros page [<- | [<- | [<- | []]]]; split; reflexivity.
Qed.

(** X13. Every id that a registered callback reads or writes is present in
    the layout, the upload page or the dashboard page; the graph callbacks
    pair, in order, the checklist and the graph that the dashboard page puts
    in one card; and no output has two callbacks. *)
Theorem callbacks_wired (df : DataFrame) :
  (forall cb i,
     In cb callbacks ->
     In i (cb_outputs cb ++ cb_inputs cb ++ cb_states cb)%list ->
     In i (ids layout ++ ids upload_page ++ ids (dashboard_page df))%list)
  /\ map (fun cb => (cb_inputs cb, cb_outputs cb)) (fst register_graphs)
     = map (fun s => ([snd (fst (fst s))], [snd s])) (sections df)
  /\ NoDup (flat_map cb_outputs callbacks).
Proof.
  split; [|split].
  - rewrite dashboard_page_ids. intros cb i Hcb Hi.
    assert (Hall : forallb
              (fun cb => forallb
                 (fun i => existsb (String.eqb i)
                    (ids layout ++ ids upload_page
                     ++ ["chiller-power-checklist"; "chiller-power-graph";
                         "supply-temp-checklist"; "supply-temp-graph";
                         "return-temp-checklist"; "return-temp-graph"])%list)
                 (cb_outputs cb ++ cb_inputs cb ++ cb_states cb)%list)
              callbacks = true) by (vm_compute; reflexivity).
    rewrite forallb_forall in Hall. specialize (Hall cb Hcb).
    rewrite forallb_forall in Hall. specialize (Hall i Hi).
    apply existsb_exists in Hall. destruct Hall as (j & Hj & Heq).
    apply String.eqb_eq in Heq. now subst j.
  - reflexivity.
  - apply (bool_decide_unpack _). vm_compute. reflexivity.
Qed.

End PageFacts.

Section PageRun.

(** X14. In a state whose store is consistent, [get_page_content] returns a
    page and leaves the state as it is: the upload page when nothing was
    clicked, the dashboard page of the stored frame when the dashboard tab was
    clicked and the frame is not empty, the placeholder when there is no frame
    or an empty one, and the settings page for any other id, also one that is
    not a tab. *)
Theorem page_of_tab (triggered : list string) (st : State) :
  store_ok st ->
  exists page,
    get_page_content triggered st = (Return page, st)
    /\ (active_tab triggered = "nav-dashboard" ->
        match stored_frame st with
        | Some df =>
            page = if empty df then dashboard_placeholder else dashboard_page df
        | None => page = dashboard_placeholder
        end)
    /\ (active_tab triggered = "nav-data-upload" -> page = upload_page)
    /\ (~ In (active_tab triggered) ["nav-dashboard"; "nav-data-upload"] ->
        page = settings_page)
    /\ get_page_content [] st = (Return upload_page, st).
Proof.
  intros Hok. unfold get_page_content, stored_frame.
  destruct (String.eqb (active_tab triggered) "nav-dashboard") eqn:Ed.
  - apply String.eqb_eq in Ed. rewrite bind_run. unfold store_get.
    destruct (uploaded_data_store st !! "data") as [l|] eqn:Hs; simpl.
    + destruct (Hok _ _ Hs) as (_ & df & Hl & _).
      rewrite bind_run. unfold deref. rewrite Hl.
      destruct (empty df); simpl; eexists; (split; [reflexivity|]);
        repeat split; try reflexivity; try congruence;
        intros Hn; exfalso; apply Hn; rewrite Ed; now left.
    + eexists. split; [reflexivity|].
      repeat split; try reflexivity; try congruence.
      intros Hn. exfalso. apply Hn. rewrite Ed. now left.
  - apply String.eqb_neq in Ed.
    destruct (String.eqb (active_tab triggered) "nav-data-upload") eqn:Eu.
    + apply String.eqb_eq in Eu. eexists. split; [reflexivity|].
      repeat split; try reflexivity; try congruence.
      intros Hn. exfalso. apply Hn. rewrite Eu. right. now left.
    + apply String.eqb_neq in Eu. eexists. split; [reflexivity|].
      repeat split; try reflexivity; congruence.
Qed.

End PageRun.

Lemma callbacks_wired_witness :
  In "upload-output" (ids layout ++ ids upload_page
                      ++ ids (dashboard_page (power_frame 3)))%list.
Proof.
  apply (proj1 (callbacks_wired (power_frame 3))
           (Callback ["upload-output"] ["upload-data"; "reset-button"]
              ["upload-data"]) "upload-output").
  - right. right. left. reflexivity.
  - left. reflexivity.
Defined.

Lemma page_of_tab_witness :
  exists page,
    get_page_content ["nav-dashboard.n_clicks"] (state_with (power_frame 3))
    = (Return page, state_with (power_frame 3))
    /\ page = dashboard_page (power_frame 3).
Proof.
  destruct (page_of_tab ["nav-dashboard.n_clicks"] (state_with (power_frame 3)))
    as (page & Hrun & Hdash & _).
  - intros k l Hk. destruct (decide (k = "data")) as [->|Hne].
    + split; [reflexivity|]. exists (power_frame 3).
      injection Hk as <-. split; [reflexivity|]. repeat constructor.
    + exfalso. unfold state_with in Hk. simpl in Hk.
      rewrite lookup_singleton_ne in Hk by congruence. discriminate.
  - exists page. split; [exact Hrun|]. exact (Hdash eq_refl).
Defined.

Lemma dashboard_page_content_witness :
  graph_ids upload_page = [] /\ checklists upload_page = [].
Proof.
  apply (proj2 (proj2 (proj2 (dashboard_page_content (power_frame 3))))).
  right. left. reflexivity.
Defined.
